(** * Off-screen triangle renderer: model of [open-gl-triangle-to-file.c]

    The program is one C translation unit: two helpers ([save_ppm],
    [check_shader_compile]) and [main].  Everything it does is a call into
    EGL, OpenGL or the C library, so the model is a small state-and-exit
    monad over

    - the file system (a finite map from paths to the bytes of each file),
    - the chronological log of every library call and console line,

    and the answers of the outside world (driver, allocator, file system)
    are read from a [World] record.  A C [int] is a [Z] with its 32-bit
    wrap-around written out; a byte buffer is a [list byte]; reading
    outside a buffer is undefined behaviour and is a separate outcome. *)

From Stdlib Require Import ZArith List String Ascii Strings.Byte Lia DecimalString.
From Stdlib Require Import DecimalPos DecimalZ.
From stdpp Require Import base option list gmap strings.

Local Open Scope Z_scope.

(** * The model *)

(** ** C integers *)

Module CInt.

(** Two's-complement reduction to a 32-bit [int].  ISO C leaves signed
    overflow undefined; the model follows the wrap-around of the usual
    targets, and the theorems about sizes assume that nothing
    overflows. *)
Definition wrap (z : Z) : Z := (z + 2 ^ 31) mod 2 ^ 32 - 2 ^ 31.

Definition mul (a b : Z) : Z := wrap (a * b).
Definition sub (a b : Z) : Z := wrap (a - b).

Definition INT_MAX : Z := 2 ^ 31 - 1.

(** Conversion of an [int] to [size_t] (64 bits). *)
Definition to_size_t (z : Z) : Z := z mod 2 ^ 64.

(** [%d] of printf. *)
Definition decimal (z : Z) : string := NilZero.string_of_int (Z.to_int z).

End CInt.

(** ** Constants of the EGL and OpenGL headers

    The headers are not part of the repository; the values are the ones
    of the Khronos registry. *)

Module Hdr.

Definition EGL_DEFAULT_DISPLAY : Z := 0.
Definition EGL_NO_DISPLAY : Z := 0.
Definition EGL_NO_CONTEXT : Z := 0.
Definition EGL_NO_SURFACE : Z := 0.
Definition EGL_SURFACE_TYPE : Z := 0x3033.
Definition EGL_PBUFFER_BIT : Z := 0x0001.
Definition EGL_BLUE_SIZE : Z := 0x3022.
Definition EGL_GREEN_SIZE : Z := 0x3023.
Definition EGL_RED_SIZE : Z := 0x3024.
Definition EGL_DEPTH_SIZE : Z := 0x3025.
Definition EGL_RENDERABLE_TYPE : Z := 0x3040.
Definition EGL_OPENGL_BIT : Z := 0x0008.
Definition EGL_NONE : Z := 0x3038.
Definition EGL_WIDTH : Z := 0x3057.
Definition EGL_HEIGHT : Z := 0x3056.
Definition EGL_OPENGL_API : Z := 0x30A2.

Definition GL_FRAMEBUFFER : Z := 0x8D40.
Definition GL_FRAMEBUFFER_COMPLETE : Z := 0x8CD5.
Definition GL_COLOR_ATTACHMENT0 : Z := 0x8CE0.
Definition GL_TEXTURE_2D : Z := 0x0DE1.
Definition GL_TEXTURE_MIN_FILTER : Z := 0x2801.
Definition GL_TEXTURE_MAG_FILTER : Z := 0x2800.
Definition GL_LINEAR : Z := 0x2601.
Definition GL_RGB : Z := 0x1907.
Definition GL_UNSIGNED_BYTE : Z := 0x1401.
Definition GL_VERTEX_SHADER : Z := 0x8B31.
Definition GL_FRAGMENT_SHADER : Z := 0x8B30.
Definition GL_COMPILE_STATUS : Z := 0x8B81.
Definition GL_COLOR_BUFFER_BIT : Z := 0x4000.
Definition GL_TRIANGLES : Z := 0x0004.

End Hdr.
Import Hdr.

(** A [GLfloat] is kept as its IEEE-754 binary32 bit pattern. *)
Definition f_0_0 : Z := 0x00000000.
Definition f_0_5 : Z := 0x3F000000.
Definition f_m0_5 : Z := 0xBF000000.
Definition f_1_0 : Z := 0x3F800000.

(** ** Text *)

Definition nl : string := String "010"%char EmptyString.

Definition bytes_of (s : string) : list byte := list_byte_of_string s.

(** ** Library calls and console lines, as they appear in the log *)

Inductive Event : Type :=
  | EglGetDisplay (native : Z)
  | EglInitialize (dpy : Z)
  | EglChooseConfig (dpy : Z) (attribs : list Z) (config_size : Z)
  | EglBindAPI (api : Z)
  | EglCreateContext (dpy config share : Z)
  | EglCreatePbufferSurface (dpy config : Z) (attribs : list Z)
  | EglMakeCurrent (dpy draw read ctx : Z)
  | EglDestroySurface (dpy surface : Z)
  | EglDestroyContext (dpy ctx : Z)
  | EglTerminate (dpy : Z)
  | GlGenFramebuffers (n : Z)
  | GlBindFramebuffer (target fbo : Z)
  | GlGenTextures (n : Z)
  | GlBindTexture (target texture : Z)
  | GlTexImage2D (target level internalformat width height border format type : Z)
  | GlTexParameteri (target pname param : Z)
  | GlFramebufferTexture2D (target attachment textarget texture level : Z)
  | GlCheckFramebufferStatus (target : Z)
  | GlCreateShader (kind : Z)
  | GlShaderSource (shader : Z) (source : string)
  | GlCompileShader (shader : Z)
  | GlGetShaderiv (shader pname : Z)
  | GlGetShaderInfoLog (shader bufSize : Z)
  | GlCreateProgram
  | GlAttachShader (program shader : Z)
  | GlLinkProgram (program : Z)
  | GlDeleteShader (shader : Z)
  | GlUseProgram (program : Z)
  | GlGetUniformLocation (program : Z) (name : string)
  | GlUniform4fv (location count : Z) (value : list Z)
  | GlViewport (x y width height : Z)
  | GlClearColor (r g b a : Z)
  | GlClear (mask : Z)
  | GlGenVertexArrays (n : Z)
  | GlBindVertexArray (vao : Z)
  | GlDrawArrays (mode first count : Z)
  | GlReadPixels (x y width height format type : Z)
  | GlDeleteVertexArrays (n vao : Z)
  | GlDeleteProgram (program : Z)
  | GlDeleteFramebuffers (n fbo : Z)
  | GlDeleteTextures (n texture : Z)
  | Malloc (size : Z)
  | Free
  | Fopen (path mode : string)
  | Fprintf (path text : string)
  | Fwrite (path : string) (data : list byte)
  | Fclose (path : string)
  | Stdout (text : string)
  | Stderr (text : string).

(** ** The outside world

    One field per call whose result the program receives.  A field is the
    value the call returns (or stores through its pointer argument) in
    the run at hand. *)

Record World : Type := mkWorld {
  egl_get_display : Z;              (* EGLDisplay, a pointer *)
  egl_initialize : Z;               (* EGLBoolean *)
  egl_choose_config : Z;            (* EGLBoolean *)
  egl_config : Z;                   (* what is left in [config] *)
  egl_num_configs : Z;              (* what is stored in [numConfigs] *)
  egl_create_context : Z;           (* EGLContext *)
  egl_create_pbuffer_surface : Z;   (* EGLSurface *)
  egl_make_current : Z;             (* EGLBoolean *)
  gl_gen_framebuffer : Z;
  gl_gen_texture : Z;
  gl_check_framebuffer_status : Z;  (* GLenum *)
  gl_create_shader : Z -> Z;        (* stage kind -> shader name *)
  gl_compile_status : Z -> Z;       (* shader name -> GL_COMPILE_STATUS *)
  gl_shader_info_log : Z -> string; (* shader name -> the driver's log *)
  gl_create_program : Z;
  gl_link_status : Z;               (* GL_LINK_STATUS of the program after
                                       glLinkProgram; the program never
                                       asks for it *)
  gl_get_uniform_location : Z;      (* GLint, -1 when not found *)
  gl_gen_vertex_array : Z;
  malloc_bytes : nat -> byte;       (* byte at each offset of a fresh,
                                       uninitialised block *)
  gl_read_pixels : nat -> byte;     (* byte at each offset of the host
                                       buffer once glReadPixels is back *)
  fopen_wb : string -> bool         (* does fopen(path, "wb") succeed *)
}.

(** ** Program state and the monad *)

Record State : Type := mkState {
  files : gmap string (list byte);
  log : list Event
}.

(** A statement either falls through with a value, or executes a
    [return] of [main], or runs into undefined behaviour. *)
Inductive Step (A : Type) : Type :=
  | Next (a : A) (s : State)
  | Return (code : Z) (s : State)
  | Undefined.
Arguments Next {A} a s.
Arguments Return {A} code s.
Arguments Undefined {A}.

Definition Run (A : Type) : Type := State -> Step A.

Definition ret {A} (a : A) : Run A := fun s => Next a s.

Definition bind {A B} (c : Run A) (k : A -> Run B) : Run B :=
  fun s =>
    match c s with
    | Next a s' => k a s'
    | Return code s' => Return code s'
    | Undefined => Undefined
    end.

Notation "x <- c ;; k" := (bind c (fun x => k))
  (at level 100, c at next level, right associativity).
Notation "c ;; k" := (bind c (fun _ => k))
  (at level 100, right associativity).

(** [return code;] inside [main]. *)
Definition return_ {A} (code : Z) : Run A := fun s => Return code s.

Definition undefined {A} : Run A := fun _ => Undefined.

Definition emit (e : Event) : Run unit :=
  fun s => Next tt (mkState (files s) (log s ++ [e])).

Definition when (b : bool) (c : Run unit) : Run unit :=
  if b then c else ret tt.

(** ** The C library *)

Definition printf (text : string) : Run unit := emit (Stdout text).
Definition fprintf_stderr (text : string) : Run unit := emit (Stderr text).

(** A [FILE *] is the path of the stream it was opened on, [None] for
    the null pointer.  Opening for writing truncates or creates the
    file. *)
Definition fopen (w : World) (path mode : string) : Run (option string) :=
  emit (Fopen path mode) ;;
  if fopen_wb w path
  then fun s => Next (Some path) (mkState (<[path := []]> (files s)) (log s))
  else ret None.

(** Output to a stream goes to the end of its file.  The program never
    looks at the result of [fprintf], [fwrite] or [fclose]; the model
    covers the runs in which an opened stream takes every byte. *)
Definition append_file (f : string) (data : list byte) : Run unit :=
  fun s => Next tt (mkState (alter (fun old => old ++ data) f (files s)) (log s)).

Definition fprintf (f : string) (text : string) : Run unit :=
  emit (Fprintf f text) ;; append_file f (bytes_of text).

(** [buffer_read buf off n] is what [fwrite] reads through a pointer
    [&buf[off]] for [n] bytes; outside the buffer there is nothing to
    read. *)
Definition buffer_read (buf : list byte) (off n : Z) : option (list byte) :=
  if (0 <=? off) && (off + n <=? Z.of_nat (length buf))
  then Some (take (Z.to_nat n) (drop (Z.to_nat off) buf))
  else None.

(** [fwrite(&buf[off], 1, n, f)]. *)
Definition fwrite (buf : list byte) (off n : Z) (f : string) : Run unit :=
  match buffer_read buf off n with
  | Some data => emit (Fwrite f data) ;; append_file f data
  | None => undefined
  end.

Definition fclose (f : string) : Run unit := emit (Fclose f).

(** A block of [n] bytes whose values are given offset by offset. *)
Definition block (content : nat -> byte) (n : nat) : list byte :=
  map content (seq 0 n).

(** ** The program *)

Definition WIDTH : Z := 640.
Definition HEIGHT : Z := 480.

Definition line (s : string) : string := s +:+ nl.

Definition vertex_shader_text : string :=
  line "#version 130" +:+
  line "uniform vec4 u_Vertices[3];" +:+
  line "void main()" +:+
  line "{" +:+
  line "    // Positions now come from a uniform array" +:+
  line "    gl_Position = u_Vertices[gl_VertexID];" +:+
  line "}".

Definition fragment_shader_text : string :=
  line "#version 130" +:+
  line "out vec4 FragColor;" +:+
  line "void main()" +:+
  line "{" +:+
  line "    // Hardcoded color" +:+
  line "    FragColor = vec4(0.0, 1.0, 0.0, 1.0);" +:+
  line "}".

Section Program.

Variable w : World.

(** *** EGL *)

Definition eglGetDisplay (native : Z) : Run Z :=
  emit (EglGetDisplay native) ;; ret (egl_get_display w).

Definition eglInitialize (dpy : Z) : Run Z :=
  emit (EglInitialize dpy) ;; ret (egl_initialize w).

(** Returns the call's result, the chosen configuration and the number
    of matching configurations. *)
Definition eglChooseConfig (dpy : Z) (attribs : list Z) (config_size : Z)
  : Run (Z * Z * Z) :=
  emit (EglChooseConfig dpy attribs config_size) ;;
  ret (egl_choose_config w, egl_config w, egl_num_configs w).

Definition eglBindAPI (api : Z) : Run unit := emit (EglBindAPI api).

Definition eglCreateContext (dpy config share : Z) : Run Z :=
  emit (EglCreateContext dpy config share) ;; ret (egl_create_context w).

Definition eglCreatePbufferSurface (dpy config : Z) (attribs : list Z) : Run Z :=
  emit (EglCreatePbufferSurface dpy config attribs) ;;
  ret (egl_create_pbuffer_surface w).

Definition eglMakeCurrent (dpy draw read ctx : Z) : Run Z :=
  emit (EglMakeCurrent dpy draw read ctx) ;; ret (egl_make_current w).

(** *** OpenGL calls with a result *)

Definition glGenFramebuffers (n : Z) : Run Z :=
  emit (GlGenFramebuffers n) ;; ret (gl_gen_framebuffer w).

Definition glGenTextures (n : Z) : Run Z :=
  emit (GlGenTextures n) ;; ret (gl_gen_texture w).

Definition glCheckFramebufferStatus (target : Z) : Run Z :=
  emit (GlCheckFramebufferStatus target) ;; ret (gl_check_framebuffer_status w).

Definition glCreateShader (kind : Z) : Run Z :=
  emit (GlCreateShader kind) ;; ret (gl_create_shader w kind).

Definition glGetShaderiv (shader pname : Z) : Run Z :=
  emit (GlGetShaderiv shader pname) ;; ret (gl_compile_status w shader).

(** The driver stores at most [bufSize] characters, the terminating
    zero included. *)
Definition glGetShaderInfoLog (shader bufSize : Z) : Run string :=
  emit (GlGetShaderInfoLog shader bufSize) ;;
  ret (substring 0 (Z.to_nat (bufSize - 1)) (gl_shader_info_log w shader)).

Definition glCreateProgram : Run Z :=
  emit GlCreateProgram ;; ret (gl_create_program w).

Definition glGetUniformLocation (program : Z) (name : string) : Run Z :=
  emit (GlGetUniformLocation program name) ;; ret (gl_get_uniform_location w).

Definition glGenVertexArrays (n : Z) : Run Z :=
  emit (GlGenVertexArrays n) ;; ret (gl_gen_vertex_array w).

(** [malloc(size)].  The program uses the result without testing it;
    the model covers the runs in which the allocation succeeds. *)
Definition malloc (size : Z) : Run (list byte) :=
  emit (Malloc size) ;; ret (block (malloc_bytes w) (Z.to_nat size)).

(** [glReadPixels] into the block [pixels]; the result is the block
    once the call is back.  The program passes a block of exactly
    [width * height * 3] bytes, which is what the driver stores for
    GL_RGB / GL_UNSIGNED_BYTE when [width * 3] is a multiple of the
    default pack alignment of four, as it is for 640. *)
Definition glReadPixels (x y width height format type : Z) (pixels : list byte)
  : Run (list byte) :=
  emit (GlReadPixels x y width height format type) ;;
  ret (block (gl_read_pixels w) (length pixels)).

(** *** [save_ppm] *)

(** The loop [for (y = height - 1; y >= 0; y--)], by the number of rows
    still to write: the next row is [y = n - 1]. *)
Fixpoint save_ppm_rows (f : string) (width : Z) (pixels : list byte) (n : nat)
  : Run unit :=
  match n with
  | O => ret tt
  | S n' =>
      let y := Z.of_nat n' in
      fwrite pixels (CInt.mul (CInt.mul y width) 3)
             (CInt.to_size_t (CInt.mul width 3)) f ;;
      save_ppm_rows f width pixels n'
  end.

Definition ppm_header (width height : Z) : string :=
  "P6" +:+ nl +:+ CInt.decimal width +:+ " " +:+ CInt.decimal height +:+ nl
  +:+ "255" +:+ nl.

Definition save_ppm (filepath : string) (width height : Z) (pixels : list byte)
  : Run unit :=
  f <- fopen w filepath "wb" ;;
  match f with
  | None =>
      fprintf_stderr ("Failed to open file for writing: " +:+ filepath +:+ nl)
  | Some f =>
      fprintf f (ppm_header width height) ;;
      save_ppm_rows f width pixels (Z.to_nat (CInt.sub height 1 + 1)) ;;
      fclose f ;;
      printf ("Saved image to " +:+ filepath +:+ nl)
  end.

(** *** [check_shader_compile] *)

Definition check_shader_compile (shader : Z) : Run unit :=
  success <- glGetShaderiv shader GL_COMPILE_STATUS ;;
  when (success =? 0)
    (infoLog <- glGetShaderInfoLog shader 512 ;;
     fprintf_stderr ("Shader Compile Error: " +:+ infoLog +:+ nl)).

(** *** [main] *)

Definition configAttribs : list Z :=
  [ EGL_SURFACE_TYPE; EGL_PBUFFER_BIT;
    EGL_BLUE_SIZE; 8;
    EGL_GREEN_SIZE; 8;
    EGL_RED_SIZE; 8;
    EGL_DEPTH_SIZE; 8;
    EGL_RENDERABLE_TYPE; EGL_OPENGL_BIT;
    EGL_NONE ].

Definition pbufferAttribs : list Z :=
  [ EGL_WIDTH; WIDTH; EGL_HEIGHT; HEIGHT; EGL_NONE ].

Definition vertices : list Z :=
  [ f_0_0;  f_0_5;  f_0_0; f_1_0;
    f_m0_5; f_m0_5; f_0_0; f_1_0;
    f_0_5;  f_m0_5; f_0_0; f_1_0 ].

Definition main_body : Run Empty_set :=
  (* 1. Initialize EGL *)
  display <- eglGetDisplay EGL_DEFAULT_DISPLAY ;;
  when (display =? EGL_NO_DISPLAY)
    (fprintf_stderr (line "Failed to get EGL display") ;; return_ (-1)) ;;
  init <- eglInitialize display ;;
  when (init =? 0)
    (fprintf_stderr (line "Failed to initialize EGL") ;; return_ (-1)) ;;
  (* 2. Choose Configuration *)
  chosen <- eglChooseConfig display configAttribs 1 ;;
  let '(choose_ok, config, numConfigs) := chosen in
  when (choose_ok =? 0)
    (fprintf_stderr (line "Failed to choose EGL config") ;; return_ (-1)) ;;
  (* 3. Bind OpenGL API *)
  eglBindAPI EGL_OPENGL_API ;;
  (* 4. Create EGL Context *)
  context <- eglCreateContext display config EGL_NO_CONTEXT ;;
  when (context =? EGL_NO_CONTEXT)
    (fprintf_stderr (line "Failed to create EGL context") ;; return_ (-1)) ;;
  (* 5. Create Pbuffer Surface *)
  surface <- eglCreatePbufferSurface display config pbufferAttribs ;;
  when (surface =? EGL_NO_SURFACE)
    (fprintf_stderr (line "Failed to create EGL surface") ;; return_ (-1)) ;;
  (* 6. Make Context Current *)
  current <- eglMakeCurrent display surface surface context ;;
  when (current =? 0)
    (fprintf_stderr (line "Failed to make context current") ;; return_ (-1)) ;;
  (* FBO setup *)
  fbo <- glGenFramebuffers 1 ;;
  emit (GlBindFramebuffer GL_FRAMEBUFFER fbo) ;;
  texture <- glGenTextures 1 ;;
  emit (GlBindTexture GL_TEXTURE_2D texture) ;;
  emit (GlTexImage2D GL_TEXTURE_2D 0 GL_RGB WIDTH HEIGHT 0 GL_RGB GL_UNSIGNED_BYTE) ;;
  emit (GlTexParameteri GL_TEXTURE_2D GL_TEXTURE_MIN_FILTER GL_LINEAR) ;;
  emit (GlTexParameteri GL_TEXTURE_2D GL_TEXTURE_MAG_FILTER GL_LINEAR) ;;
  emit (GlFramebufferTexture2D GL_FRAMEBUFFER GL_COLOR_ATTACHMENT0 GL_TEXTURE_2D texture 0) ;;
  status <- glCheckFramebufferStatus GL_FRAMEBUFFER ;;
  when (negb (status =? GL_FRAMEBUFFER_COMPLETE))
    (fprintf_stderr (line "Error: Framebuffer is not complete!") ;; return_ (-1)) ;;
  (* 7. Compile Vertex Shader *)
  vertexShader <- glCreateShader GL_VERTEX_SHADER ;;
  emit (GlShaderSource vertexShader vertex_shader_text) ;;
  emit (GlCompileShader vertexShader) ;;
  check_shader_compile vertexShader ;;
  (* 8. Compile Fragment Shader *)
  fragmentShader <- glCreateShader GL_FRAGMENT_SHADER ;;
  emit (GlShaderSource fragmentShader fragment_shader_text) ;;
  emit (GlCompileShader fragmentShader) ;;
  check_shader_compile fragmentShader ;;
  (* 9. Link Program *)
  shaderProgram <- glCreateProgram ;;
  emit (GlAttachShader shaderProgram vertexShader) ;;
  emit (GlAttachShader shaderProgram fragmentShader) ;;
  emit (GlLinkProgram shaderProgram) ;;
  emit (GlDeleteShader vertexShader) ;;
  emit (GlDeleteShader fragmentShader) ;;
  emit (GlUseProgram shaderProgram) ;;
  verticesLoc <- glGetUniformLocation shaderProgram "u_Vertices" ;;
  (if negb (verticesLoc =? -1)
   then emit (GlUniform4fv verticesLoc 3 vertices)
   else fprintf_stderr (line "Warning: Could not find u_Vertices uniform location.")) ;;
  (* 10. Render *)
  emit (GlViewport 0 0 WIDTH HEIGHT) ;;
  emit (GlClearColor f_0_0 f_0_0 f_0_0 f_1_0) ;;
  emit (GlClear GL_COLOR_BUFFER_BIT) ;;
  VAO <- glGenVertexArrays 1 ;;
  emit (GlBindVertexArray VAO) ;;
  emit (GlDrawArrays GL_TRIANGLES 0 3) ;;
  (* 11. Read Pixels from FBO *)
  pixels <- malloc (CInt.to_size_t (CInt.mul (CInt.mul WIDTH HEIGHT) 3)) ;;
  pixels <- glReadPixels 0 0 WIDTH HEIGHT GL_RGB GL_UNSIGNED_BYTE pixels ;;
  (* 12. Save to file *)
  save_ppm "output.ppm" WIDTH HEIGHT pixels ;;
  (* 13. Cleanup *)
  emit (GlDeleteVertexArrays 1 VAO) ;;
  emit (GlDeleteProgram shaderProgram) ;;
  emit (GlDeleteFramebuffers 1 fbo) ;;
  emit (GlDeleteTextures 1 texture) ;;
  emit Free ;;
  emit (EglDestroySurface display surface) ;;
  emit (EglDestroyContext display context) ;;
  emit (EglTerminate display) ;;
  return_ 0.

End Program.

(** What the process leaves behind: the value returned by [main] and the
    final state, or a crash. *)
Inductive Outcome : Type :=
  | Exit (code : Z) (s : State)
  | Crash.

Definition main (w : World) (s : State) : Outcome :=
  match main_body w s with
  | Next e _ => match e with end
  | Return code s' => Exit code s'
  | Undefined => Crash
  end.

(** A run starts with an empty log on a given file system. *)
Definition start (fs : gmap string (list byte)) : State := mkState fs [].

(** Do the seven checks of [main] all pass?  A failed one ends the run
    with [-1]. *)
Definition setup_ok (w : World) : bool :=
  negb (egl_get_display w =? EGL_NO_DISPLAY)
  && negb (egl_initialize w =? 0)
  && negb (egl_choose_config w =? 0)
  && negb (egl_create_context w =? EGL_NO_CONTEXT)
  && negb (egl_create_pbuffer_surface w =? EGL_NO_SURFACE)
  && negb (egl_make_current w =? 0)
  && (gl_check_framebuffer_status w =? GL_FRAMEBUFFER_COMPLETE).

(** * Vocabulary of the statements *)

(** ** Rows of an image

    Row [i] of a buffer of [width]-pixel rows of three bytes each. *)
Definition image_row (width : Z) (buf : list byte) (i : Z) : list byte :=
  take (Z.to_nat (width * 3)) (drop (Z.to_nat (i * (width * 3))) buf).

(** The rows [n - 1], ..., [0] of a buffer, in that order. *)
Fixpoint rows_down (width : Z) (buf : list byte) (n : nat) : list (list byte) :=
  match n with
  | O => []
  | S n' => image_row width buf (Z.of_nat n') :: rows_down width buf n'
  end.

(** The image data [save_ppm] writes after the header. *)
Definition ppm_payload (width height : Z) (pixels : list byte) : list byte :=
  concat (rows_down width pixels (Z.to_nat height)).

(** The text [P6\n640 480\n255\n], byte by byte. *)
Definition header_640_480 : list byte :=
  [ x50; x36; x0a;
    x36; x34; x30; x20; x34; x38; x30; x0a;
    x32; x35; x35; x0a ].

(** A 2 x 2 image: bottom row 1..6, top row 7..12. *)
Definition pixels_2x2 : list byte :=
  [ x01; x02; x03; x04; x05; x06; x07; x08; x09; x0a; x0b; x0c ].

(** ** Kinds of events *)

Definition is_draw (e : Event) : bool :=
  match e with GlDrawArrays _ _ _ => true | _ => false end.

Definition is_readback (e : Event) : bool :=
  match e with GlReadPixels _ _ _ _ _ _ => true | _ => false end.

Definition is_file_call (e : Event) : bool :=
  match e with
  | Fopen _ _ | Fprintf _ _ | Fwrite _ _ | Fclose _ => true
  | _ => false
  end.

Definition is_file_write (e : Event) : bool :=
  match e with Fprintf _ _ | Fwrite _ _ => true | _ => false end.

Definition is_console_out (e : Event) : bool :=
  match e with Stdout _ => true | _ => false end.

Definition is_uniform_upload (e : Event) : bool :=
  match e with GlUniform4fv _ _ _ => true | _ => false end.

(** Does a call on a file name the given path (and, for [fopen], the
    given mode)?  Other events pass. *)
Definition on_file (path mode : string) (e : Event) : bool :=
  match e with
  | Fopen p m => String.eqb p path && String.eqb m mode
  | Fprintf p _ | Fwrite p _ | Fclose p => String.eqb p path
  | _ => true
  end.

(** The events of a run that stops at one of the seven checks: EGL and
    framebuffer set-up calls and console lines. *)
Definition is_setup_event (e : Event) : bool :=
  match e with
  | EglGetDisplay _ | EglInitialize _ | EglChooseConfig _ _ _ | EglBindAPI _
  | EglCreateContext _ _ _ | EglCreatePbufferSurface _ _ _ | EglMakeCurrent _ _ _ _
  | GlGenFramebuffers _ | GlBindFramebuffer _ _ | GlGenTextures _ | GlBindTexture _ _
  | GlTexImage2D _ _ _ _ _ _ _ _ | GlTexParameteri _ _ _
  | GlFramebufferTexture2D _ _ _ _ _ | GlCheckFramebufferStatus _
  | Stderr _ => true
  | _ => false
  end.

Definition is_config_error (e : Event) : bool :=
  match e with
  | Stderr text => String.eqb text (line "Failed to choose EGL config")
  | _ => false
  end.

(** ** The trace of [main]

    [trace w] lists, in order, every call and console line of a run in
    the world [w]; [main_run] below proves that this is the log [main]
    leaves.  Each definition is one stretch of [main], from its first call
    up to the end of the run. *)

Section Trace.

Variable w : World.

Let display := egl_get_display w.
Let config := egl_config w.
Let context := egl_create_context w.
Let surface := egl_create_pbuffer_surface w.
Let fbo := gl_gen_framebuffer w.
Let texture := gl_gen_texture w.
Let vertexShader := gl_create_shader w GL_VERTEX_SHADER.
Let fragmentShader := gl_create_shader w GL_FRAGMENT_SHADER.
Let shaderProgram := gl_create_program w.
Let verticesLoc := gl_get_uniform_location w.
Let VAO := gl_gen_vertex_array w.

(** The block [main] passes to [save_ppm]. *)
Definition readback : list byte :=
  block (gl_read_pixels w) (Z.to_nat (WIDTH * HEIGHT * 3)).

Definition trace_cleanup : list Event :=
  [ GlDeleteVertexArrays 1 VAO;
    GlDeleteProgram shaderProgram;
    GlDeleteFramebuffers 1 fbo;
    GlDeleteTextures 1 texture;
    Free;
    EglDestroySurface display surface;
    EglDestroyContext display context;
    EglTerminate display ].

Definition trace_save : list Event :=
  if fopen_wb w "output.ppm"
  then [ Fopen "output.ppm" "wb";
         Fprintf "output.ppm" (ppm_header WIDTH HEIGHT) ]
       ++ map (Fwrite "output.ppm") (rows_down WIDTH readback (Z.to_nat HEIGHT))
       ++ [ Fclose "output.ppm";
            Stdout ("Saved image to " +:+ "output.ppm" +:+ nl) ]
  else [ Fopen "output.ppm" "wb";
         Stderr ("Failed to open file for writing: " +:+ "output.ppm" +:+ nl) ].

Definition trace_render : list Event :=
  [ GlViewport 0 0 WIDTH HEIGHT;
    GlClearColor f_0_0 f_0_0 f_0_0 f_1_0;
    GlClear GL_COLOR_BUFFER_BIT;
    GlGenVertexArrays 1;
    GlBindVertexArray VAO;
    GlDrawArrays GL_TRIANGLES 0 3;
    Malloc (WIDTH * HEIGHT * 3);
    GlReadPixels 0 0 WIDTH HEIGHT GL_RGB GL_UNSIGNED_BYTE ].

Definition trace_uniform : list Event :=
  [ GlGetUniformLocation shaderProgram "u_Vertices";
    if negb (verticesLoc =? -1)
    then GlUniform4fv verticesLoc 3 vertices
    else Stderr (line "Warning: Could not find u_Vertices uniform location.") ].

Definition trace_link : list Event :=
  [ GlCreateProgram;
    GlAttachShader shaderProgram vertexShader;
    GlAttachShader shaderProgram fragmentShader;
    GlLinkProgram shaderProgram;
    GlDeleteShader vertexShader;
    GlDeleteShader fragmentShader;
    GlUseProgram shaderProgram ].

Definition trace_check (shader : Z) : list Event :=
  GlGetShaderiv shader GL_COMPILE_STATUS ::
  (if gl_compile_status w shader =? 0
   then [ GlGetShaderInfoLog shader 512;
          Stderr ("Shader Compile Error: "
                  +:+ substring 0 511 (gl_shader_info_log w shader) +:+ nl) ]
   else []).

Definition trace_stage (kind : Z) (source : string) : list Event :=
  [ GlCreateShader kind;
    GlShaderSource (gl_create_shader w kind) source;
    GlCompileShader (gl_create_shader w kind) ]
  ++ trace_check (gl_create_shader w kind).

(** From the first shader call to the end of the run. *)
Definition trace_program : list Event :=
  trace_stage GL_VERTEX_SHADER vertex_shader_text
  ++ trace_stage GL_FRAGMENT_SHADER fragment_shader_text
  ++ trace_link ++ trace_uniform ++ trace_render ++ trace_save ++ trace_cleanup.

Definition trace_target : list Event :=
  [ GlGenFramebuffers 1;
    GlBindFramebuffer GL_FRAMEBUFFER fbo;
    GlGenTextures 1;
    GlBindTexture GL_TEXTURE_2D texture;
    GlTexImage2D GL_TEXTURE_2D 0 GL_RGB WIDTH HEIGHT 0 GL_RGB GL_UNSIGNED_BYTE;
    GlTexParameteri GL_TEXTURE_2D GL_TEXTURE_MIN_FILTER GL_LINEAR;
    GlTexParameteri GL_TEXTURE_2D GL_TEXTURE_MAG_FILTER GL_LINEAR;
    GlFramebufferTexture2D GL_FRAMEBUFFER GL_COLOR_ATTACHMENT0 GL_TEXTURE_2D texture 0;
    GlCheckFramebufferStatus GL_FRAMEBUFFER ]
  ++ (if gl_check_framebuffer_status w =? GL_FRAMEBUFFER_COMPLETE
      then trace_program
      else [ Stderr (line "Error: Framebuffer is not complete!") ]).

Definition trace_current : list Event :=
  EglMakeCurrent display surface surface context ::
  (if egl_make_current w =? 0
   then [ Stderr (line "Failed to make context current") ]
   else trace_target).

Definition trace_surface : list Event :=
  EglCreatePbufferSurface display config pbufferAttribs ::
  (if surface =? EGL_NO_SURFACE
   then [ Stderr (line "Failed to create EGL surface") ]
   else trace_current).

Definition trace_context : list Event :=
  EglBindAPI EGL_OPENGL_API ::
  EglCreateContext display config EGL_NO_CONTEXT ::
  (if context =? EGL_NO_CONTEXT
   then [ Stderr (line "Failed to create EGL context") ]
   else trace_surface).

Definition trace_config : list Event :=
  EglChooseConfig display configAttribs 1 ::
  (if egl_choose_config w =? 0
   then [ Stderr (line "Failed to choose EGL config") ]
   else trace_context).

Definition trace_initialize : list Event :=
  EglInitialize display ::
  (if egl_initialize w =? 0
   then [ Stderr (line "Failed to initialize EGL") ]
   else trace_config).

Definition trace : list Event :=
  EglGetDisplay EGL_DEFAULT_DISPLAY ::
  (if display =? EGL_NO_DISPLAY
   then [ Stderr (line "Failed to get EGL display") ]
   else trace_initialize).

(** The value [main] returns. *)
Definition exit_code : Z := if setup_ok w then 0 else -1.

(** The file system [main] leaves. *)
Definition files_after (fs : gmap string (list byte)) : gmap string (list byte) :=
  if setup_ok w && fopen_wb w "output.ppm"
  then <["output.ppm" := bytes_of (ppm_header WIDTH HEIGHT)
                         ++ ppm_payload WIDTH HEIGHT readback]> fs
  else fs.

End Trace.

(** The events of the first seven steps of [main] when all of them
    succeed. *)
Definition trace_setup (w : World) : list Event :=
  [ EglGetDisplay EGL_DEFAULT_DISPLAY;
    EglInitialize (egl_get_display w);
    EglChooseConfig (egl_get_display w) configAttribs 1;
    EglBindAPI EGL_OPENGL_API;
    EglCreateContext (egl_get_display w) (egl_config w) EGL_NO_CONTEXT;
    EglCreatePbufferSurface (egl_get_display w) (egl_config w) pbufferAttribs;
    EglMakeCurrent (egl_get_display w) (egl_create_pbuffer_surface w)
                   (egl_create_pbuffer_surface w) (egl_create_context w);
    GlGenFramebuffers 1;
    GlBindFramebuffer GL_FRAMEBUFFER (gl_gen_framebuffer w);
    GlGenTextures 1;
    GlBindTexture GL_TEXTURE_2D (gl_gen_texture w);
    GlTexImage2D GL_TEXTURE_2D 0 GL_RGB WIDTH HEIGHT 0 GL_RGB GL_UNSIGNED_BYTE;
    GlTexParameteri GL_TEXTURE_2D GL_TEXTURE_MIN_FILTER GL_LINEAR;
    GlTexParameteri GL_TEXTURE_2D GL_TEXTURE_MAG_FILTER GL_LINEAR;
    GlFramebufferTexture2D GL_FRAMEBUFFER GL_COLOR_ATTACHMENT0 GL_TEXTURE_2D
                           (gl_gen_texture w) 0;
    GlCheckFramebufferStatus GL_FRAMEBUFFER ].

(** The first fifteen events of [trace_setup]. *)
Definition trace_before_check (w : World) : list Event := take 15 (trace_setup w).

(** ** Sample worlds *)

(** A world given by the answers the properties turn on; the names the
    driver hands out are fixed. *)
Definition world_of (display init choose num_configs context surface current
                     status compile link location : Z) (opens : bool) : World :=
  {| egl_get_display := display;
     egl_initialize := init;
     egl_choose_config := choose;
     egl_config := if num_configs =? 0 then 0 else 7;
     egl_num_configs := num_configs;
     egl_create_context := context;
     egl_create_pbuffer_surface := surface;
     egl_make_current := current;
     gl_gen_framebuffer := 1;
     gl_gen_texture := 1;
     gl_check_framebuffer_status := status;
     gl_create_shader := fun kind => if kind =? GL_VERTEX_SHADER then 1 else 2;
     gl_compile_status := fun _ => compile;
     gl_shader_info_log := fun _ => "0:6(1): error: syntax error";
     gl_create_program := 3;
     gl_link_status := link;
     gl_get_uniform_location := location;
     gl_gen_vertex_array := 1;
     malloc_bytes := fun _ => xff;
     gl_read_pixels := fun _ => x00;
     fopen_wb := fun _ => opens |}.

(** Every call succeeds. *)
Definition w_nominal : World := world_of 1 1 1 1 2 3 1 GL_FRAMEBUFFER_COMPLETE 1 1 0 true.


(** The framebuffer is reported incomplete
    (GL_FRAMEBUFFER_INCOMPLETE_ATTACHMENT). *)
Definition w_incomplete : World := world_of 1 1 1 1 2 3 1 0x8CD6 1 1 0 true.

(** The output file cannot be opened; everything else succeeds. *)
Definition w_unwritable : World := world_of 1 1 1 1 2 3 1 GL_FRAMEBUFFER_COMPLETE 1 1 0 false.

(** The uniform is not found; everything else succeeds. *)
Definition w_no_uniform : World := world_of 1 1 1 1 2 3 1 GL_FRAMEBUFFER_COMPLETE 1 1 (-1) true.

(** Both shader stages fail to compile and the program fails to link;
    every other call succeeds. *)
Definition w_bad_shaders : World := world_of 1 1 1 1 2 3 1 GL_FRAMEBUFFER_COMPLETE 0 0 0 true.

(** The stages compile, the program fails to link. *)
Definition w_link_fails : World := world_of 1 1 1 1 2 3 1 GL_FRAMEBUFFER_COMPLETE 1 0 0 true.

(** [eglChooseConfig] succeeds but finds no configuration: it returns
    EGL_TRUE, stores 0 in [numConfigs] and leaves [config] alone; the
    driver then refuses to create a context for that configuration. *)
Definition w_no_config : World := world_of 1 1 1 0 0 3 1 GL_FRAMEBUFFER_COMPLETE 1 1 0 true.

(** The same, with a driver that creates the context all the same. *)
Definition w_no_config_lenient : World :=
  world_of 1 1 1 0 2 3 1 GL_FRAMEBUFFER_COMPLETE 1 1 0 true.

(** ** Vocabulary of the further properties *)

(** A file system with a file beside the image. *)
Definition fs_notes : gmap string (list byte) := {[ "notes.txt" := [x68; x69] ]}.

(** The state [save_ppm] leaves for the 2 x 2 image on [fs_notes]. *)
Definition s_2x2 : State :=
  match save_ppm w_nominal "out.ppm" 2 2 pixels_2x2 (start fs_notes) with
  | Next _ s' => s'
  | _ => start fs_notes
  end.

(** Does the character occur in the string? *)
Fixpoint has_char (c : ascii) (s : string) : bool :=
  match s with
  | EmptyString => false
  | String a s' => Ascii.eqb a c || has_char c s'
  end.

(** The eight calls at the end of [main] that give back what the run
    holds. *)
Definition is_cleanup_call (e : Event) : bool :=
  match e with
  | GlDeleteVertexArrays _ _ | GlDeleteProgram _ | GlDeleteFramebuffers _ _
  | GlDeleteTextures _ _ | Free
  | EglDestroySurface _ _ | EglDestroyContext _ _ | EglTerminate _ => true
  | _ => false
  end.

(** Calls into OpenGL. *)
Definition is_gl_call (e : Event) : bool :=
  match e with
  | GlGenFramebuffers _ | GlBindFramebuffer _ _ | GlGenTextures _ | GlBindTexture _ _
  | GlTexImage2D _ _ _ _ _ _ _ _ | GlTexParameteri _ _ _
  | GlFramebufferTexture2D _ _ _ _ _ | GlCheckFramebufferStatus _
  | GlCreateShader _ | GlShaderSource _ _ | GlCompileShader _ | GlGetShaderiv _ _
  | GlGetShaderInfoLog _ _ | GlCreateProgram | GlAttachShader _ _ | GlLinkProgram _
  | GlDeleteShader _ | GlUseProgram _ | GlGetUniformLocation _ _ | GlUniform4fv _ _ _
  | GlViewport _ _ _ _ | GlClearColor _ _ _ _ | GlClear _ | GlGenVertexArrays _
  | GlBindVertexArray _ | GlDrawArrays _ _ _ | GlReadPixels _ _ _ _ _ _
  | GlDeleteVertexArrays _ _ | GlDeleteProgram _ | GlDeleteFramebuffers _ _
  | GlDeleteTextures _ _ => true
  | _ => false
  end.

Definition is_error_line (e : Event) : bool :=
  match e with Stderr _ => true | _ => false end.

Definition is_open (e : Event) : bool :=
  match e with Fopen _ _ => true | _ => false end.

(** The log ends with the call [call] and the error line [msg], the
    only error line of the run. *)
Definition stops_at (lg : list Event) (call : Event) (msg : string) : Prop :=
  exists before,
    lg = before ++ [call; Stderr (line msg)]
    /\ Forall (fun e => is_error_line e = false) (before ++ [call]).

(** No display. *)
Definition w_no_display : World := world_of 0 1 1 1 2 3 1 GL_FRAMEBUFFER_COMPLETE 1 1 0 true.

(** The uniform is found at location 5. *)
Definition w_uniform_found : World := world_of 1 1 1 1 2 3 1 GL_FRAMEBUFFER_COMPLETE 1 1 5 true.

(** The [int] values the loop of [save_ppm] computes for at least one
    row, the row size [width * 3] and the offsets up to
    [(height - 1) * width * 3], are in the range of [int]. *)
Definition rows_fit_int (width height : Z) : Prop :=
  0 < height ->
  - CInt.INT_MAX <= width * 3 <= CInt.INT_MAX
  /\ - CInt.INT_MAX <= (height - 1) * (width * 3) <= CInt.INT_MAX.

(** A buffer for 30000 rows of 30000 pixels. *)
Definition pixels_30000 : list byte := repeat x00 (Z.to_nat (30000 * 30000 * 3)).



(** * Properties *)

(** ** Integer and buffer facts *)

Lemma wrap_small (z : Z) : - 2 ^ 31 <= z <= CInt.INT_MAX -> CInt.wrap z = z.
Proof.
  unfold CInt.wrap, CInt.INT_MAX. intros Hz.
  rewrite Z.mod_small by lia. lia.
Qed.

Lemma to_size_t_small (z : Z) : 0 <= z <= CInt.INT_MAX -> CInt.to_size_t z = z.
Proof.
  unfold CInt.to_size_t, CInt.INT_MAX. intros Hz.
  apply Z.mod_small. lia.
Qed.

Lemma length_block (content : nat -> byte) (n : nat) : length (block content n) = n.
Proof. unfold block. now rewrite length_map, length_seq. Qed.


Lemma length_substring_0 (m : nat) (s : string) :
  (String.length (substring 0 m s) <= m)%nat.
Proof.
  revert s. induction m as [| m IH]; intros s.
  - destruct s; cbn; lia.
  - destruct s as [| c s]; cbn; [lia |]. specialize (IH s). lia.
Qed.

(** The pointer and the size the loop of [save_ppm] hands to [fwrite]
    denote row [y] as long as the rows up to [y] lie inside the buffer
    and their size fits an [int]. *)
Lemma buffer_read_row (buf : list byte) (width y : Z) :
  0 <= width -> 0 <= y ->
  (y + 1) * (width * 3) <= Z.of_nat (length buf) ->
  (y + 1) * (width * 3) <= CInt.INT_MAX ->
  buffer_read buf (CInt.mul (CInt.mul y width) 3)
              (CInt.to_size_t (CInt.mul width 3))
  = Some (image_row width buf y).
Proof.
  intros Hw Hy Hlen Hmax. unfold CInt.mul.
  assert (Hyw : 0 <= y * width) by lia.
  assert (Hb1 : y * width * 3 <= CInt.INT_MAX) by nia.
  assert (Hb2 : width * 3 <= CInt.INT_MAX) by nia.
  unfold CInt.INT_MAX in *.
  rewrite (wrap_small (y * width)) by (unfold CInt.INT_MAX; nia).
  rewrite (wrap_small (y * width * 3)) by (unfold CInt.INT_MAX; lia).
  rewrite (wrap_small (width * 3)) by (unfold CInt.INT_MAX; lia).
  rewrite to_size_t_small by (unfold CInt.INT_MAX; lia).
  unfold buffer_read, image_row.
  replace (y * (width * 3)) with (y * width * 3) by ring.
  destruct (0 <=? y * width * 3) eqn:E1; [| lia].
  destruct (y * width * 3 + width * 3 <=? Z.of_nat (length buf)) eqn:E2; [| lia].
  reflexivity.
Qed.

Lemma length_image_row (buf : list byte) (width y : Z) :
  0 <= width -> 0 <= y ->
  (y + 1) * (width * 3) <= Z.of_nat (length buf) ->
  Z.of_nat (length (image_row width buf y)) = width * 3.
Proof.
  intros Hw Hy Hlen. unfold image_row.
  rewrite length_take, length_drop. lia.
Qed.

Lemma length_rows_down (buf : list byte) (width : Z) (n : nat) :
  0 <= width ->
  Z.of_nat n * (width * 3) <= Z.of_nat (length buf) ->
  Z.of_nat (length (concat (rows_down width buf n))) = Z.of_nat n * (width * 3).
Proof.
  intros Hw. induction n as [| n IH]; intros Hlen.
  - reflexivity.
  - cbn [rows_down concat]. rewrite length_app, Nat2Z.inj_add.
    rewrite length_image_row by lia. rewrite IH by lia. lia.
Qed.

(** Row [n - 1 - i] of the concatenation of the rows [n - 1], ..., [0] is
    row [i] of the buffer. *)
Lemma image_row_rows_down (buf : list byte) (width : Z) (n : nat) (i : Z) :
  0 <= width ->
  Z.of_nat n * (width * 3) <= Z.of_nat (length buf) ->
  0 <= i < Z.of_nat n ->
  image_row width (concat (rows_down width buf n)) (Z.of_nat n - 1 - i)
  = image_row width buf i.
Proof.
  intros Hw. induction n as [| n IH]; intros Hlen Hi; [lia |].
  cbn [rows_down concat].
  assert (Hrow : Z.of_nat (length (image_row width buf (Z.of_nat n))) = width * 3)
    by (apply length_image_row; lia).
  destruct (Z.eq_dec i (Z.of_nat n)) as [-> | Hne].
  - replace (Z.of_nat (S n) - 1 - Z.of_nat n) with 0 by lia.
    unfold image_row at 1. cbn [Z.mul Z.to_nat drop].
    apply take_app_length'. lia.
  - unfold image_row at 1.
    replace (Z.to_nat ((Z.of_nat (S n) - 1 - i) * (width * 3)))
      with (length (image_row width buf (Z.of_nat n))
            + Z.to_nat ((Z.of_nat n - 1 - i) * (width * 3)))%nat by nia.
    rewrite drop_app_add. apply IH; lia.
Qed.

(** ** The loop of [save_ppm] *)

Lemma save_ppm_rows_ok (f : string) (width : Z) (pixels : list byte) (n : nat)
      (s : State) :
  0 <= width ->
  Z.of_nat n * (width * 3) <= Z.of_nat (length pixels) ->
  Z.of_nat n * (width * 3) <= CInt.INT_MAX ->
  save_ppm_rows f width pixels n s
  = Next tt (mkState
               (alter (fun old => old ++ concat (rows_down width pixels n)) f (files s))
               (log s ++ map (Fwrite f) (rows_down width pixels n))).
Proof.
  intros Hw. revert s. induction n as [| n IH]; intros s Hlen Hmax.
  - cbn. unfold ret. destruct s as [fs lg]. cbn. f_equal. f_equal.
    + symmetry. apply alter_id. intros x _. apply app_nil_r.
    + symmetry. apply app_nil_r.
  - cbn [save_ppm_rows rows_down concat map]. unfold bind at 1, fwrite.
    rewrite buffer_read_row by lia.
    unfold bind at 1, emit, append_file. rewrite IH by lia. cbn [files log].
    f_equal. f_equal.
    + rewrite alter_alter_eq. apply alter_ext. intros x _. cbn.
      now rewrite app_assoc.
    + now rewrite <- app_assoc.
Qed.

(** Past the range of [int] the offset of the first row written wraps
    to a negative number and the read leaves the buffer: 30000 rows of
    30000 pixels, whatever block is passed. *)
Example save_ppm_rows_overflow (f : string) (pixels : list byte) (s : State) :
  save_ppm_rows f 30000 pixels (Z.to_nat 30000) s = Undefined.
Proof.
  assert (Hstep : forall n : nat,
             save_ppm_rows f 30000 pixels (S n) s
             = bind (fwrite pixels (CInt.mul (CInt.mul (Z.of_nat n) 30000) 3)
                            (CInt.to_size_t (CInt.mul 30000 3)) f)
                    (fun _ => save_ppm_rows f 30000 pixels n) s)
    by reflexivity.
  replace (Z.to_nat 30000) with (S (Z.to_nat 29999)) by lia.
  rewrite Hstep, Z2Nat.id by lia.
  replace (CInt.mul (CInt.mul 29999 30000) 3) with (-1595057296) by reflexivity.
  unfold bind, fwrite, buffer_read. reflexivity.
Qed.

(** ** [save_ppm], both branches *)

Section SavePpm.

Variable w : World.
Variables (filepath : string) (width height : Z) (pixels : list byte).

Lemma save_ppm_cannot_open (s : State) :
  fopen_wb w filepath = false ->
  save_ppm w filepath width height pixels s
  = Next tt (mkState (files s)
               (log s ++ [Fopen filepath "wb";
                          Stderr ("Failed to open file for writing: "
                                  +:+ filepath +:+ nl)])).
Proof.
  intros Hopen. unfold save_ppm, fopen, fprintf_stderr, bind, emit, ret.
  rewrite Hopen. cbn. now rewrite <- app_assoc.
Qed.

Hypothesis Hwidth : 0 <= width.
Hypothesis Hheight : 0 <= height <= CInt.INT_MAX.
Hypothesis Hsize : Z.of_nat (length pixels) = width * height * 3.
Hypothesis Hint : width * height * 3 <= CInt.INT_MAX.

Lemma save_ppm_opened (s : State) :
  fopen_wb w filepath = true ->
  save_ppm w filepath width height pixels s
  = Next tt (mkState
               (<[filepath := bytes_of (ppm_header width height) ++ ppm_payload width height pixels]>
                  (files s))
               (log s ++ [Fopen filepath "wb";
                          Fprintf filepath (ppm_header width height)]
                      ++ map (Fwrite filepath) (rows_down width pixels (Z.to_nat height))
                      ++ [Fclose filepath;
                          Stdout ("Saved image to " +:+ filepath +:+ nl)])).
Proof.
  intros Hopen. unfold save_ppm, fopen, fprintf.
  unfold bind at 1. unfold bind at 1. unfold emit at 1. rewrite Hopen.
  unfold bind at 1. unfold bind at 1. unfold emit at 1.
  unfold append_file at 1. unfold bind at 1.
  assert (Hn : Z.to_nat (CInt.sub height 1 + 1) = Z.to_nat height).
  { unfold CInt.sub. rewrite wrap_small by (unfold CInt.INT_MAX in *; lia).
    f_equal. lia. }
  rewrite Hn, save_ppm_rows_ok by (rewrite ?Z2Nat.id; lia || nia).
  unfold bind, fclose, printf, emit. cbn [files log].
  f_equal. f_equal.
  - rewrite alter_alter_eq, alter_insert_eq. reflexivity.
  - rewrite <- !app_assoc. reflexivity.
Qed.

Lemma length_ppm_payload :
  Z.of_nat (length (ppm_payload width height pixels)) = width * height * 3.
Proof.
  unfold ppm_payload. rewrite length_rows_down by (rewrite ?Z2Nat.id; lia).
  rewrite Z2Nat.id by lia. ring.
Qed.

Lemma ppm_payload_row (i : Z) :
  0 <= i < height ->
  image_row width (ppm_payload width height pixels) (height - 1 - i) = image_row width pixels i.
Proof.
  intros Hi. unfold ppm_payload.
  rewrite <- (Z2Nat.id height) at 2 by lia.
  apply image_row_rows_down; rewrite ?Z2Nat.id; lia.
Qed.

End SavePpm.

(** ** Running [main] *)

Lemma check_shader_compile_run (w : World) (shader : Z) (s : State) :
  check_shader_compile w shader s
  = Next tt (mkState (files s) (log s ++ trace_check w shader)).
Proof.
  unfold check_shader_compile, trace_check, glGetShaderiv, glGetShaderInfoLog,
    fprintf_stderr, when, bind, emit, ret.
  destruct (gl_compile_status w shader =? 0); cbn [files log];
    now rewrite <- ?app_assoc.
Qed.

Lemma WIDTH_HEIGHT_3 : CInt.to_size_t (CInt.mul (CInt.mul WIDTH HEIGHT) 3) = WIDTH * HEIGHT * 3.
Proof. reflexivity. Qed.

Lemma readback_eq (w : World) :
  readback w = block (gl_read_pixels w) (Z.to_nat (WIDTH * HEIGHT * 3)).
Proof. reflexivity. Qed.

Lemma length_readback (w : World) :
  Z.of_nat (length (readback w)) = WIDTH * HEIGHT * 3.
Proof. unfold readback. rewrite length_block. now rewrite Z2Nat.id. Qed.

Lemma save_ppm_run (w : World) (s : State) :
  save_ppm w "output.ppm" WIDTH HEIGHT (readback w) s
  = Next tt (mkState
               (if fopen_wb w "output.ppm"
                then <["output.ppm" := bytes_of (ppm_header WIDTH HEIGHT)
                                       ++ ppm_payload WIDTH HEIGHT (readback w)]> (files s)
                else files s)
               (log s ++ trace_save w)).
Proof.
  unfold trace_save. destruct (fopen_wb w "output.ppm") eqn:Hopen.
  - apply save_ppm_opened; try assumption.
    + unfold WIDTH; lia.
    + unfold HEIGHT, CInt.INT_MAX; lia.
    + apply length_readback.
    + unfold WIDTH, HEIGHT, CInt.INT_MAX; lia.
  - now apply save_ppm_cannot_open.
Qed.

(** Evaluation of [main_body] one stretch at a time: [go] runs the calls
    up to the next test, [exits_on c] decides the test [c] and closes the
    branch that returns. *)
Ltac go := cbn -[save_ppm check_shader_compile Z.to_nat block String.append Z.eqb
                  trace_program trace_check trace_save].
Ltac exits_on c :=
  go; destruct c eqn:?; go; [now rewrite <- ?app_assoc |].

Lemma main_body_run (w : World) (s : State) :
  main_body w s
  = Return (exit_code w) (mkState (files_after w (files s)) (log s ++ trace w)).
Proof.
  unfold main_body, exit_code, files_after, setup_ok.
  unfold eglGetDisplay, eglInitialize, eglChooseConfig, eglBindAPI, eglCreateContext,
    eglCreatePbufferSurface, eglMakeCurrent, glGenFramebuffers, glGenTextures,
    glCheckFramebufferStatus, glCreateShader, glCreateProgram, glGetUniformLocation,
    glGenVertexArrays, malloc, glReadPixels, fprintf_stderr, when.
  unfold trace, trace_initialize, trace_config, trace_context, trace_surface,
    trace_current, trace_target.
  exits_on (egl_get_display w =? EGL_NO_DISPLAY).
  exits_on (egl_initialize w =? 0).
  exits_on (egl_choose_config w =? 0).
  exits_on (egl_create_context w =? EGL_NO_CONTEXT).
  exits_on (egl_create_pbuffer_surface w =? EGL_NO_SURFACE).
  exits_on (egl_make_current w =? 0).
  go; destruct (gl_check_framebuffer_status w =? GL_FRAMEBUFFER_COMPLETE) eqn:?; go;
    [| now rewrite <- ?app_assoc].
  unfold bind at 1. rewrite check_shader_compile_run. go.
  unfold bind at 1. rewrite check_shader_compile_run. go.
  assert (Huni : forall st : State,
    (if negb (gl_get_uniform_location w =? -1)
     then emit (GlUniform4fv (gl_get_uniform_location w) 3 vertices)
     else emit (Stderr (line "Warning: Could not find u_Vertices uniform location."))) st
    = Next tt (mkState (files st)
        (log st ++ [if negb (gl_get_uniform_location w =? -1)
                    then GlUniform4fv (gl_get_uniform_location w) 3 vertices
                    else Stderr (line "Warning: Could not find u_Vertices uniform location.")])))
    by (intros st; now destruct (gl_get_uniform_location w =? -1)).
  unfold bind at 1. rewrite Huni. clear Huni. go.
  rewrite length_block, WIDTH_HEIGHT_3, <- readback_eq.
  unfold bind at 1. rewrite save_ppm_run. go.
  unfold trace_program, trace_stage, trace_link, trace_uniform, trace_render, trace_cleanup.
  f_equal. f_equal. rewrite <- ?app_assoc. reflexivity.
Qed.

Lemma main_run (w : World) (s : State) :
  main w s
  = Exit (exit_code w) (mkState (files_after w (files s)) (log s ++ trace w)).
Proof. unfold main. now rewrite main_body_run. Qed.

(** [main] always returns: no path of it reads outside the pixel block. *)
Lemma main_returns (w : World) (s : State) : main w s <> Crash.
Proof. now rewrite main_run. Qed.

(** ** Facts about traces *)

Lemma setup_ok_true (w : World) :
  setup_ok w = true ->
  (egl_get_display w =? EGL_NO_DISPLAY) = false
  /\ (egl_initialize w =? 0) = false
  /\ (egl_choose_config w =? 0) = false
  /\ (egl_create_context w =? EGL_NO_CONTEXT) = false
  /\ (egl_create_pbuffer_surface w =? EGL_NO_SURFACE) = false
  /\ (egl_make_current w =? 0) = false
  /\ (gl_check_framebuffer_status w =? GL_FRAMEBUFFER_COMPLETE) = true.
Proof.
  unfold setup_ok. rewrite !andb_true_iff, !negb_true_iff. tauto.
Qed.

Lemma setup_ok_false (w : World) :
  setup_ok w = false <->
  egl_get_display w = EGL_NO_DISPLAY
  \/ egl_initialize w = 0
  \/ egl_choose_config w = 0
  \/ egl_create_context w = EGL_NO_CONTEXT
  \/ egl_create_pbuffer_surface w = EGL_NO_SURFACE
  \/ egl_make_current w = 0
  \/ gl_check_framebuffer_status w <> GL_FRAMEBUFFER_COMPLETE.
Proof.
  unfold setup_ok.
  rewrite !andb_false_iff, !negb_false_iff, !Z.eqb_eq, Z.eqb_neq. tauto.
Qed.

Lemma exit_code_ok (w : World) : setup_ok w = true -> exit_code w = 0.
Proof. unfold exit_code. now intros ->. Qed.

Lemma trace_setup_ok (w : World) :
  setup_ok w = true -> trace w = trace_setup w ++ trace_program w.
Proof.
  intros H. apply setup_ok_true in H.
  destruct H as (H1 & H2 & H3 & H4 & H5 & H6 & H7).
  unfold trace, trace_initialize, trace_config, trace_context, trace_surface,
    trace_current, trace_target.
  now rewrite H1, H2, H3, H4, H5, H6, H7.
Qed.

(** A property of events holds along a list of [fwrite] calls as soon
    as it holds for [fwrite]. *)
Lemma Forall_fwrites (P : Event -> Prop) (path : string) (rows : list (list byte)) :
  (forall data, P (Fwrite path data)) -> Forall P (map (Fwrite path) rows).
Proof.
  intros HP. induction rows as [| r rows IH]; cbn; constructor; auto.
Qed.

(** Splits a goal [Forall P l] along the appends, conses and tests of
    an explicit trace. *)
Ltac along_trace :=
  repeat first
    [ apply List.Forall_nil
    | apply List.Forall_cons; [try solve [cbn; auto] |]
    | apply Forall_app; split
    | apply Forall_fwrites; intros; try solve [cbn; auto]
    | match goal with
      | |- context [if ?c then _ else _] => destruct c eqn:?
      end
    | solve [cbn; auto] ].

Ltac unfold_program :=
  unfold trace_program, trace_stage, trace_check, trace_link, trace_uniform,
    trace_render, trace_save, trace_cleanup, trace_setup.

Ltac unfold_trace :=
  unfold trace, trace_initialize, trace_config, trace_context, trace_surface,
    trace_current, trace_target.

Lemma trace_setup_failed (w : World) :
  setup_ok w = false -> Forall (fun e => is_setup_event e = true) (trace w).
Proof.
  unfold setup_ok. unfold_trace. intros H.
  destruct (egl_get_display w =? EGL_NO_DISPLAY); [along_trace |].
  destruct (egl_initialize w =? 0); [along_trace |].
  destruct (egl_choose_config w =? 0); [along_trace |].
  destruct (egl_create_context w =? EGL_NO_CONTEXT); [along_trace |].
  destruct (egl_create_pbuffer_surface w =? EGL_NO_SURFACE); [along_trace |].
  destruct (egl_make_current w =? 0); [along_trace |].
  destruct (gl_check_framebuffer_status w =? GL_FRAMEBUFFER_COMPLETE);
    [discriminate | along_trace].
Qed.

Lemma trace_program_on_file (w : World) :
  Forall (fun e => on_file "output.ppm" "wb" e = true) (trace_program w).
Proof. unfold_program. along_trace. Qed.

Lemma trace_setup_on_file (w : World) :
  Forall (fun e => on_file "output.ppm" "wb" e = true) (trace_setup w).
Proof. unfold_program. along_trace. Qed.

(** With the seven checks passed and [fopen] failing, the run ends with
    the failed [fopen], the error line and the eight release calls. *)
Lemma trace_open_failure_tail (w : World) :
  setup_ok w = true ->
  fopen_wb w "output.ppm" = false ->
  trace w
  = (trace_setup w
     ++ trace_stage w GL_VERTEX_SHADER vertex_shader_text
     ++ trace_stage w GL_FRAGMENT_SHADER fragment_shader_text
     ++ trace_link w ++ trace_uniform w ++ trace_render w)
    ++ [ Fopen "output.ppm" "wb";
         Stderr (line "Failed to open file for writing: output.ppm") ]
    ++ [ GlDeleteVertexArrays 1 (gl_gen_vertex_array w);
         GlDeleteProgram (gl_create_program w);
         GlDeleteFramebuffers 1 (gl_gen_framebuffer w);
         GlDeleteTextures 1 (gl_gen_texture w);
         Free;
         EglDestroySurface (egl_get_display w) (egl_create_pbuffer_surface w);
         EglDestroyContext (egl_get_display w) (egl_create_context w);
         EglTerminate (egl_get_display w) ].
Proof.
  intros Hok Hopen. rewrite (trace_setup_ok w Hok).
  unfold trace_program, trace_save, trace_cleanup. rewrite Hopen.
  rewrite <- !app_assoc. reflexivity.
Qed.

(** The line [Saved image to output.ppm] is on the console exactly in
    the runs that pass the seven checks and open the file. *)
Lemma saved_line_iff_success (w : World) :
  In (Stdout (line "Saved image to output.ppm")) (trace w)
  <-> setup_ok w = true /\ fopen_wb w "output.ppm" = true.
Proof.
  split.
  - intros Hin. destruct (setup_ok w) eqn:Hok.
    + split; [reflexivity |].
      destruct (fopen_wb w "output.ppm") eqn:Hopen; [reflexivity |].
      assert (Hall : Forall (fun e => is_console_out e = false) (trace w)).
      { rewrite (trace_setup_ok w Hok). unfold_program. rewrite Hopen.
        along_trace. }
      rewrite List.Forall_forall in Hall. apply Hall in Hin. discriminate Hin.
    + pose proof (trace_setup_failed w Hok) as Hall.
      rewrite List.Forall_forall in Hall. apply Hall in Hin. discriminate Hin.
  - intros [Hok Hopen]. rewrite (trace_setup_ok w Hok). apply in_or_app. right.
    unfold trace_program, trace_save. rewrite Hopen, !in_app_iff.
    do 5 right. left. right. right. cbn [In]. tauto.
Qed.

Lemma compile_error_in_stage (w : World) (kind : Z) (source : string) :
  gl_compile_status w (gl_create_shader w kind) = 0 ->
  In (Stderr ("Shader Compile Error: "
              +:+ substring 0 511 (gl_shader_info_log w (gl_create_shader w kind))
              +:+ nl))
     (trace_stage w kind source).
Proof.
  intros Hfail. unfold trace_stage, trace_check. rewrite Hfail.
  cbn [Z.eqb app In]. tauto.
Qed.

(** What follows [glLinkProgram] in a run that passed the seven checks,
    whatever the link status. *)
Lemma run_after_link (w : World) (fs : gmap string (list byte)) :
  setup_ok w = true ->
  exists before after,
    main w (start fs)
    = Exit 0 (mkState (files_after w fs)
                (before ++ GlLinkProgram (gl_create_program w) :: after))
    /\ before = trace_setup w
                ++ trace_stage w GL_VERTEX_SHADER vertex_shader_text
                ++ trace_stage w GL_FRAGMENT_SHADER fragment_shader_text
                ++ take 3 (trace_link w)
    /\ In (GlDrawArrays GL_TRIANGLES 0 3) after
    /\ In (GlReadPixels 0 0 640 480 GL_RGB GL_UNSIGNED_BYTE) after
    /\ In (Fopen "output.ppm" "wb") after.
Proof.
  intros Hok. rewrite main_run, (exit_code_ok w Hok).
  cbn [start files log app]. rewrite (trace_setup_ok w Hok).
  eexists.
  exists (drop 4 (trace_link w) ++ trace_uniform w ++ trace_render w
          ++ trace_save w ++ trace_cleanup w).
  split; [| split; [reflexivity |]].
  - unfold trace_program, trace_link. cbn [take drop].
    rewrite <- !app_assoc. reflexivity.
  - unfold trace_link. cbn [drop]. rewrite !in_app_iff.
    split; [| split].
    + right. right. left. unfold trace_render. cbn [In]. tauto.
    + right. right. left. unfold trace_render. cbn [In]. tauto.
    + right. right. right. left. unfold trace_save.
      destruct (fopen_wb w "output.ppm"); left; reflexivity.
Qed.

(** ** The image file *)

Lemma ppm_header_WIDTH_HEIGHT : bytes_of (ppm_header WIDTH HEIGHT) = header_640_480.
Proof. reflexivity. Qed.

Lemma files_after_opened (w : World) (fs : gmap string (list byte)) :
  setup_ok w = true -> fopen_wb w "output.ppm" = true ->
  files_after w fs !! "output.ppm"
  = Some (header_640_480 ++ ppm_payload WIDTH HEIGHT (readback w)).
Proof.
  intros Hok Hopen. unfold files_after. rewrite Hok, Hopen. cbn [andb].
  now rewrite lookup_insert_eq, ppm_header_WIDTH_HEIGHT.
Qed.

Lemma length_payload_640_480 (w : World) :
  Z.of_nat (length (ppm_payload WIDTH HEIGHT (readback w))) = 640 * 480 * 3.
Proof.
  apply length_ppm_payload.
  - unfold WIDTH; lia.
  - unfold HEIGHT, CInt.INT_MAX; lia.
  - apply length_readback.
Qed.

(** The same image, run: the file holds the top row first. *)
Example save_ppm_2x2 :
  exists s',
    save_ppm w_nominal "out.ppm" 2 2 pixels_2x2 (start ∅) = Next tt s'
    /\ files s' !! "out.ppm"
       = Some (bytes_of ("P6" +:+ nl +:+ "2 2" +:+ nl +:+ "255" +:+ nl)
               ++ [ x07; x08; x09; x0a; x0b; x0c; x01; x02; x03; x04; x05; x06 ]).
Proof. eexists. split; [reflexivity |]. vm_compute. reflexivity. Qed.

(** ** The configuration check *)

(** When [eglChooseConfig] itself fails, the run stops there with the
    error line and -1, before any context is created. *)
Lemma choose_config_failure_aborts (w : World) (fs : gmap string (list byte)) :
  egl_get_display w <> EGL_NO_DISPLAY ->
  egl_initialize w <> 0 ->
  egl_choose_config w = 0 ->
  main w (start fs)
  = Exit (-1) (mkState fs
       [ EglGetDisplay EGL_DEFAULT_DISPLAY;
         EglInitialize (egl_get_display w);
         EglChooseConfig (egl_get_display w) configAttribs 1;
         Stderr (line "Failed to choose EGL config") ]).
Proof.
  intros Hd Hi Hc. apply Z.eqb_neq in Hd, Hi.
  rewrite main_run. unfold exit_code, files_after, setup_ok. unfold_trace.
  rewrite Hd, Hi, Hc. reflexivity.
Qed.

(** The number of matching configurations plays no part: as soon as
    [eglChooseConfig] returns non-zero, the context creation is attempted
    and the configuration error is never printed. *)
Lemma config_count_is_ignored (w : World) (fs : gmap string (list byte)) :
  egl_get_display w <> EGL_NO_DISPLAY ->
  egl_initialize w <> 0 ->
  egl_choose_config w <> 0 ->
  exists code s',
    main w (start fs) = Exit code s'
    /\ In (EglCreateContext (egl_get_display w) (egl_config w) EGL_NO_CONTEXT) (log s')
    /\ Forall (fun e => is_config_error e = false) (log s').
Proof.
  intros Hd Hi Hc. apply Z.eqb_neq in Hd, Hi, Hc.
  rewrite main_run. eexists. eexists. split; [reflexivity |].
  cbn [start files log app]. unfold_trace. rewrite Hd, Hi, Hc. split.
  - cbn [In]. tauto.
  - destruct (egl_create_context w =? EGL_NO_CONTEXT); [along_trace |].
    destruct (egl_create_pbuffer_surface w =? EGL_NO_SURFACE); [along_trace |].
    destruct (egl_make_current w =? 0); [along_trace |].
    destruct (gl_check_framebuffer_status w =? GL_FRAMEBUFFER_COMPLETE);
      [| along_trace].
    unfold_program. along_trace.
Qed.

(** With a driver that accepts the call, the same condition goes
    unnoticed to the end of the run. *)
Example no_matching_config_unnoticed :
  egl_num_configs w_no_config_lenient = 0
  /\ exists s',
    main w_no_config_lenient (start ∅) = Exit 0 s'
    /\ In (EglCreateContext 1 0 EGL_NO_CONTEXT) (log s')
    /\ Forall (fun e => is_config_error e = false) (log s').
Proof.
  split; [reflexivity |].
  assert (Hne : forall z : Z, 1 <> 0) by discriminate.
  destruct (config_count_is_ignored w_no_config_lenient ∅ (Hne 0) (Hne 0) (Hne 0))
    as (code & s' & Hrun & Hin & Hall).
  rewrite main_run in Hrun. injection Hrun as <- <-.
  eexists. split; [apply main_run |]. split; assumption.
Qed.

(** Running again on the file system a complete run has left changes
    nothing: the file is opened for writing afresh and gets the same
    bytes. *)
Lemma rerun_leaves_files_unchanged (w : World) (fs : gmap string (list byte)) :
  exists s1 s2,
    main w (start fs) = Exit (exit_code w) s1
    /\ main w (start (files s1)) = Exit (exit_code w) s2
    /\ files s2 = files s1.
Proof.
  exists (mkState (files_after w fs) (trace w)).
  exists (mkState (files_after w (files_after w fs)) (trace w)).
  split; [apply main_run |]. split; [apply main_run |].
  cbn [files]. unfold files_after.
  destruct (setup_ok w && fopen_wb w "output.ppm"); [| reflexivity].
  apply insert_insert_eq.
Qed.

(** * Properties of [save_ppm] *)

Lemma save_ppm_loop_count (height : Z) :
  - CInt.INT_MAX <= height <= CInt.INT_MAX ->
  Z.to_nat (CInt.sub height 1 + 1) = Z.to_nat height.
Proof.
  intros Hh. unfold CInt.sub.
  rewrite wrap_small by (unfold CInt.INT_MAX in *; lia). f_equal. lia.
Qed.

(** [save_ppm] on a file that opens, as one step from the loop. *)
Lemma save_ppm_opened_loop (w : World) (filepath : string) (width height : Z)
      (pixels : list byte) (s : State) :
  fopen_wb w filepath = true ->
  save_ppm w filepath width height pixels s
  = match save_ppm_rows filepath width pixels (Z.to_nat (CInt.sub height 1 + 1))
            (mkState (<[filepath := bytes_of (ppm_header width height)]> (files s))
                     (log s ++ [Fopen filepath "wb";
                                Fprintf filepath (ppm_header width height)]))
    with
    | Next _ s' =>
        Next tt (mkState (files s')
                   (log s' ++ [Fclose filepath;
                               Stdout ("Saved image to " +:+ filepath +:+ nl)]))
    | Return code s' => Return code s'
    | Undefined => Undefined
    end.
Proof.
  intros Hopen. unfold save_ppm, fopen, fprintf.
  unfold bind at 1. unfold bind at 1. unfold emit at 1. rewrite Hopen.
  unfold bind at 1. unfold bind at 1. unfold emit at 1.
  unfold append_file at 1. unfold bind at 1. cbn [files log].
  rewrite alter_insert_eq, <- app_assoc. cbn [app].
  destruct (save_ppm_rows _ _ _ _ _) as [[] s' | |]; try reflexivity.
  unfold bind, fclose, printf, emit. cbn [files log].
  now rewrite <- app_assoc.
Qed.

(** The [int] values the loop of [save_ppm] computes, the row size
    [width * 3] and the offsets up to [(height - 1) * width * 3], stay in
    range. *)
Lemma buffer_read_row_fit (buf : list byte) (width y : Z) :
  0 <= width -> 0 <= y ->
  (y + 1) * (width * 3) <= Z.of_nat (length buf) ->
  width * 3 <= CInt.INT_MAX ->
  y * (width * 3) <= CInt.INT_MAX ->
  buffer_read buf (CInt.mul (CInt.mul y width) 3)
              (CInt.to_size_t (CInt.mul width 3))
  = Some (image_row width buf y).
Proof.
  intros Hw Hy Hlen Hrow Hoff. unfold CInt.mul, CInt.INT_MAX in *.
  rewrite (wrap_small (y * width)) by (unfold CInt.INT_MAX; nia).
  rewrite (wrap_small (y * width * 3)) by (unfold CInt.INT_MAX; lia).
  rewrite (wrap_small (width * 3)) by (unfold CInt.INT_MAX; lia).
  rewrite to_size_t_small by (unfold CInt.INT_MAX; lia).
  unfold buffer_read, image_row.
  replace (y * (width * 3)) with (y * width * 3) by ring.
  destruct (0 <=? y * width * 3) eqn:E1; [| lia].
  destruct (y * width * 3 + width * 3 <=? Z.of_nat (length buf)) eqn:E2; [| lia].
  reflexivity.
Qed.

Lemma save_ppm_rows_fit (f : string) (width : Z) (pixels : list byte) (n : nat)
      (s : State) :
  0 <= width ->
  Z.of_nat n * (width * 3) <= Z.of_nat (length pixels) ->
  rows_fit_int width (Z.of_nat n) ->
  save_ppm_rows f width pixels n s
  = Next tt (mkState
               (alter (fun old => old ++ concat (rows_down width pixels n)) f (files s))
               (log s ++ map (Fwrite f) (rows_down width pixels n))).
Proof.
  intros Hw. unfold rows_fit_int.
  revert s. induction n as [| n IH]; intros s Hlen Hfit.
  - cbn. unfold ret. destruct s as [fs lg]. cbn. f_equal. f_equal.
    + symmetry. apply alter_id. intros x _. apply app_nil_r.
    + symmetry. apply app_nil_r.
  - cbn [save_ppm_rows rows_down concat map]. unfold bind at 1, fwrite.
    rewrite buffer_read_row_fit by lia.
    unfold bind at 1, emit, append_file. rewrite IH by (try lia; nia).
    cbn [files log]. f_equal. f_equal.
    + rewrite alter_alter_eq. apply alter_ext. intros x _. cbn.
      now rewrite app_assoc.
    + now rewrite <- app_assoc.
Qed.

(** [save_ppm] on a file that opens and a buffer that is large enough. *)
Lemma save_ppm_opened_fit (w : World) (filepath : string) (width height : Z)
      (pixels : list byte) (s : State) :
  fopen_wb w filepath = true ->
  0 <= width ->
  0 <= height <= CInt.INT_MAX ->
  rows_fit_int width height ->
  width * height * 3 <= Z.of_nat (length pixels) ->
  save_ppm w filepath width height pixels s
  = Next tt (mkState
               (<[filepath := bytes_of (ppm_header width height)
                              ++ ppm_payload width height pixels]> (files s))
               (log s ++ [Fopen filepath "wb";
                          Fprintf filepath (ppm_header width height)]
                      ++ map (Fwrite filepath) (rows_down width pixels (Z.to_nat height))
                      ++ [Fclose filepath;
                          Stdout ("Saved image to " +:+ filepath +:+ nl)])).
Proof.
  intros Hopen Hw Hh Hfit Hlen.
  rewrite save_ppm_opened_loop by assumption.
  rewrite save_ppm_loop_count by (unfold CInt.INT_MAX in *; lia).
  rewrite save_ppm_rows_fit by (rewrite ?Z2Nat.id; assumption || lia).
  cbn [files log]. unfold ppm_payload. f_equal. f_equal.
  - rewrite alter_insert_eq. reflexivity.
  - rewrite <- !app_assoc. reflexivity.
Qed.

(** 30000 rows of 30000 pixels: the offset of the first row written does
    not fit an [int], and the call is undefined whatever the buffer. *)
Lemma save_ppm_30000_undefined (w : World) (filepath : string)
      (pixels : list byte) (s : State) :
  fopen_wb w filepath = true ->
  save_ppm w filepath 30000 30000 pixels s = Undefined.
Proof.
  intros Hopen. rewrite save_ppm_opened_loop by assumption.
  rewrite save_ppm_loop_count by (unfold CInt.INT_MAX; lia).
  rewrite save_ppm_rows_overflow. reflexivity.
Qed.

Lemma to_size_t_negative (z : Z) : - 2 ^ 31 <= z < 0 -> CInt.to_size_t z = z + 2 ^ 64.
Proof.
  intros Hz. unfold CInt.to_size_t.
  rewrite <- (Z_mod_plus_full z 1 (2 ^ 64)). apply Z.mod_small. lia.
Qed.

(** The first row the loop writes is the top one; when it does not lie
    inside the buffer, or [width] is negative, nothing can be read. *)
Lemma top_row_unreadable (pixels : list byte) (width height : Z) :
  1 <= height ->
  rows_fit_int width height ->
  Z.of_nat (length pixels) < 2 ^ 63 ->
  ~ (0 <= width /\ width * height * 3 <= Z.of_nat (length pixels)) ->
  buffer_read pixels (CInt.mul (CInt.mul (height - 1) width) 3)
              (CInt.to_size_t (CInt.mul width 3)) = None.
Proof.
  intros Hh Hfit Hlen Hbad. unfold rows_fit_int in Hfit.
  destruct Hfit as [Hrow Hoff]; [lia |].
  unfold CInt.mul, CInt.INT_MAX in *.
  rewrite (wrap_small ((height - 1) * width)) by (unfold CInt.INT_MAX; nia).
  rewrite (wrap_small ((height - 1) * width * 3)) by (unfold CInt.INT_MAX; nia).
  rewrite (wrap_small (width * 3)) by (unfold CInt.INT_MAX; nia).
  unfold buffer_read.
  destruct (Z_lt_le_dec width 0) as [Hneg | Hpos].
  - rewrite to_size_t_negative by nia.
    destruct (0 <=? (height - 1) * width * 3) eqn:E1; [| reflexivity].
    apply Z.leb_le in E1.
    destruct ((height - 1) * width * 3 + (width * 3 + 2 ^ 64)
              <=? Z.of_nat (length pixels)) eqn:E2; [| reflexivity].
    apply Z.leb_le in E2. nia.
  - rewrite to_size_t_small by (unfold CInt.INT_MAX; nia).
    destruct (0 <=? (height - 1) * width * 3) eqn:E1; [| reflexivity].
    destruct ((height - 1) * width * 3 + width * 3
              <=? Z.of_nat (length pixels)) eqn:E2; [| reflexivity].
    apply Z.leb_le in E2. exfalso. apply Hbad. split; [lia | nia].
Qed.

(** X1. With no row to write ([height <= 0]) [save_ppm] never looks at
    the buffer or at [width]: the file it leaves is the header alone, and
    the log is [fopen], [fprintf], [fclose] and the console line. *)
Theorem save_ppm_without_rows (w : World) (filepath : string) (width height : Z)
        (pixels : list byte) (s : State) :
  fopen_wb w filepath = true ->
  - CInt.INT_MAX <= height <= 0 ->
  save_ppm w filepath width height pixels s
  = Next tt (mkState
               (<[filepath := bytes_of (ppm_header width height)]> (files s))
               (log s ++ [ Fopen filepath "wb";
                           Fprintf filepath (ppm_header width height);
                           Fclose filepath;
                           Stdout ("Saved image to " +:+ filepath +:+ nl) ])).
Proof.
  intros Hopen Hh. rewrite save_ppm_opened_loop by assumption.
  rewrite save_ppm_loop_count by (unfold CInt.INT_MAX in *; lia).
  replace (Z.to_nat height) with O by lia.
  cbn [save_ppm_rows]. unfold ret. cbn [files log].
  now rewrite <- app_assoc.
Qed.

Lemma save_ppm_without_rows_witness :
  save_ppm w_nominal "out.ppm" (-7) 0 [] (start ∅)
  = Next tt (mkState
               (<["out.ppm" := bytes_of (ppm_header (-7) 0)]> ∅)
               ([] ++ [ Fopen "out.ppm" "wb";
                        Fprintf "out.ppm" (ppm_header (-7) 0);
                        Fclose "out.ppm";
                        Stdout ("Saved image to " +:+ "out.ppm" +:+ nl) ])).
Proof.
  apply (save_ppm_without_rows w_nominal "out.ppm" (-7) 0 [] (start ∅)).
  - reflexivity.
  - unfold CInt.INT_MAX. lia.
Defined.

(** X2. [save_ppm] checks none of its arguments.  For a file that
    opens, a height between [- INT_MAX] and [INT_MAX], a width for which
    the [int] values of the loop ([width * 3] and the offsets up to
    [(height - 1) * width * 3]) do not overflow, and a buffer of less than
    [2 ^ 63] bytes, it returns exactly when there is no row to write or
    the width is not negative and the buffer holds [width * height * 3]
    bytes; in every other case the first [fwrite] reads outside the
    buffer. *)
Theorem save_ppm_defined_iff (w : World) (filepath : string) (width height : Z)
        (pixels : list byte) (s : State) :
  fopen_wb w filepath = true ->
  - CInt.INT_MAX <= height <= CInt.INT_MAX ->
  rows_fit_int width height ->
  Z.of_nat (length pixels) < 2 ^ 63 ->
  ((exists s', save_ppm w filepath width height pixels s = Next tt s')
   <-> height <= 0
       \/ (0 <= width /\ width * height * 3 <= Z.of_nat (length pixels)))
  /\ (~ (height <= 0
         \/ (0 <= width /\ width * height * 3 <= Z.of_nat (length pixels))) ->
      save_ppm w filepath width height pixels s = Undefined).
Proof.
  intros Hopen Hh Hfit Hlen.
  assert (Hundef :
            ~ (height <= 0
               \/ (0 <= width /\ width * height * 3 <= Z.of_nat (length pixels))) ->
            save_ppm w filepath width height pixels s = Undefined).
  { intros Hbad.
    rewrite save_ppm_opened_loop by assumption.
    rewrite save_ppm_loop_count by assumption.
    replace (Z.to_nat height) with (S (Z.to_nat (height - 1))) by lia.
    cbn [save_ppm_rows]. rewrite Z2Nat.id by lia.
    unfold bind at 1, fwrite.
    rewrite top_row_unreadable by (try assumption; try lia; tauto).
    reflexivity. }
  split; [| exact Hundef]. split.
  - intros [s' Hrun].
    destruct (Z_le_gt_dec height 0) as [Hle | Hgt]; [now left | right].
    destruct (Z_lt_le_dec width 0) as [Hneg | Hpos];
      [| destruct (Z_le_gt_dec (width * height * 3) (Z.of_nat (length pixels)));
         [now split |]];
      exfalso; rewrite Hundef in Hrun by lia; discriminate Hrun.
  - intros [Hle | [Hw Hfill]].
    + eexists. apply save_ppm_without_rows; [assumption | lia].
    + destruct (Z_le_gt_dec height 0) as [Hle | Hgt].
      * eexists. apply save_ppm_without_rows; [assumption | lia].
      * eexists. apply save_ppm_opened_fit; try assumption; lia.
Qed.

Lemma save_ppm_defined_iff_witness :
  ((exists s', save_ppm w_nominal "out.ppm" 2 2 (take 11 pixels_2x2) (start ∅) = Next tt s')
   <-> 2 <= 0 \/ (0 <= 2 /\ 2 * 2 * 3 <= Z.of_nat (length (take 11 pixels_2x2))))
  /\ (~ (2 <= 0 \/ (0 <= 2 /\ 2 * 2 * 3 <= Z.of_nat (length (take 11 pixels_2x2)))) ->
      save_ppm w_nominal "out.ppm" 2 2 (take 11 pixels_2x2) (start ∅) = Undefined).
Proof.
  apply (save_ppm_defined_iff w_nominal "out.ppm" 2 2 (take 11 pixels_2x2) (start ∅)).
  - reflexivity.
  - unfold CInt.INT_MAX. lia.
  - unfold rows_fit_int, CInt.INT_MAX. lia.
  - cbn. lia.
Defined.

(** Two rows of 700000000 pixels: the size of the image is beyond
    [int], the values the loop computes are not. *)
Example rows_fit_int_wide : rows_fit_int 700000000 2.
Proof. unfold rows_fit_int, CInt.INT_MAX. lia. Qed.

(** One byte short, and the run is undefined. *)
Example save_ppm_short_buffer :
  save_ppm w_nominal "out.ppm" 2 2 (take 11 pixels_2x2) (start ∅) = Undefined.
Proof. reflexivity. Qed.

(** Whatever its arguments, a loop that returns has only appended to
    the log and has changed no file but its own. *)
Lemma save_ppm_rows_frame (f : string) (width : Z) (pixels : list byte) (n : nat)
      (s s' : State) :
  save_ppm_rows f width pixels n s = Next tt s' ->
  (forall q, q <> f -> files s' !! q = files s !! q)
  /\ exists writes,
      log s' = log s ++ writes
      /\ length writes = n
      /\ Forall (fun e => exists data, e = Fwrite f data) writes.
Proof.
  revert s. induction n as [| n IH]; intros s Hrun.
  - cbn in Hrun. injection Hrun as <-. split; [reflexivity |].
    exists []. rewrite app_nil_r. repeat split. constructor.
  - cbn [save_ppm_rows] in Hrun. unfold bind at 1, fwrite in Hrun.
    destruct (buffer_read _ _ _) as [data |]; [| discriminate Hrun].
    unfold bind at 1, emit, append_file in Hrun.
    apply IH in Hrun. cbn [files log] in Hrun.
    destruct Hrun as (Hframe & writes & Hlog & Hlen & Hall). split.
    + intros q Hq. rewrite (Hframe q Hq). now apply lookup_alter_ne.
    + exists (Fwrite f data :: writes). rewrite Hlog, <- app_assoc.
      split; [reflexivity |]. split; [cbn; now rewrite Hlen |].
      constructor; [now exists data | assumption].
Qed.

(** X3. A call of [save_ppm] that returns has changed no file other
    than the one it was given, whatever the sizes and the buffer, and when
    the file cannot be opened it has changed no file at all. *)
Theorem save_ppm_changes_only_its_file (w : World) (filepath : string)
        (width height : Z) (pixels : list byte) (s s' : State) :
  save_ppm w filepath width height pixels s = Next tt s' ->
  (forall q, q <> filepath -> files s' !! q = files s !! q)
  /\ (fopen_wb w filepath = false -> files s' = files s).
Proof.
  intros Hrun. destruct (fopen_wb w filepath) eqn:Hopen.
  - split; [| discriminate].
    rewrite save_ppm_opened_loop in Hrun by assumption.
    destruct (save_ppm_rows _ _ _ _ _) as [[] s1 | |] eqn:Hrows;
      try discriminate Hrun.
    injection Hrun as <-. cbn [files].
    apply save_ppm_rows_frame in Hrows. destruct Hrows as [Hframe _].
    intros q Hq. rewrite (Hframe q Hq). cbn [files]. now apply lookup_insert_ne.
  - rewrite save_ppm_cannot_open in Hrun by assumption.
    injection Hrun as <-. now split.
Qed.

Lemma save_ppm_changes_only_its_file_witness :
  (forall q, q <> "out.ppm" -> files s_2x2 !! q = files (start fs_notes) !! q)
  /\ (fopen_wb w_nominal "out.ppm" = false -> files s_2x2 = files (start fs_notes)).
Proof.
  apply (save_ppm_changes_only_its_file w_nominal "out.ppm" 2 2 pixels_2x2).
  vm_compute. reflexivity.
Defined.

Lemma image_row_app (width : Z) (buf extra : list byte) (i : Z) :
  0 <= width -> 0 <= i ->
  (i + 1) * (width * 3) <= Z.of_nat (length buf) ->
  image_row width (buf ++ extra) i = image_row width buf i.
Proof.
  intros Hw Hi Hlen. unfold image_row.
  rewrite drop_app_le by lia. apply take_app_le. rewrite length_drop. lia.
Qed.

Lemma rows_down_app (width : Z) (buf extra : list byte) (n : nat) :
  0 <= width ->
  Z.of_nat n * (width * 3) <= Z.of_nat (length buf) ->
  rows_down width (buf ++ extra) n = rows_down width buf n.
Proof.
  intros Hw. induction n as [| n IH]; intros Hlen; [reflexivity |].
  cbn [rows_down]. rewrite image_row_app by lia. rewrite IH by lia. reflexivity.
Qed.

(** X4. [save_ppm] reads the first [width * height * 3] bytes of the
    buffer and nothing else: when the [int] values of the loop do not
    overflow and the buffer holds that many bytes, bytes that follow them
    change neither the file nor the log. *)
Theorem save_ppm_ignores_trailing_bytes (w : World) (filepath : string)
        (width height : Z) (pixels extra : list byte) (s : State) :
  0 <= width ->
  0 <= height <= CInt.INT_MAX ->
  rows_fit_int width height ->
  width * height * 3 <= Z.of_nat (length pixels) ->
  save_ppm w filepath width height (pixels ++ extra) s
  = save_ppm w filepath width height pixels s.
Proof.
  intros Hw Hh Hfit Hlen. destruct (fopen_wb w filepath) eqn:Hopen.
  - rewrite !save_ppm_opened_fit by (rewrite ?length_app; assumption || lia).
    unfold ppm_payload.
    rewrite rows_down_app by (rewrite ?Z2Nat.id; lia || nia). reflexivity.
  - now rewrite !save_ppm_cannot_open.
Qed.

Lemma save_ppm_ignores_trailing_bytes_witness :
  save_ppm w_nominal "out.ppm" 2 2 (pixels_2x2 ++ [xff; xfe]) (start ∅)
  = save_ppm w_nominal "out.ppm" 2 2 pixels_2x2 (start ∅).
Proof.
  apply (save_ppm_ignores_trailing_bytes w_nominal "out.ppm" 2 2 pixels_2x2
           [xff; xfe] (start ∅));
    unfold rows_fit_int; cbn; unfold CInt.INT_MAX; lia.
Defined.

Lemma length_rows_down_count (width : Z) (buf : list byte) (n : nat) :
  length (rows_down width buf n) = n.
Proof. induction n as [| n IH]; cbn; [reflexivity | now rewrite IH]. Qed.

Lemma rows_down_lookup (width : Z) (buf : list byte) (n k : nat) :
  (k < n)%nat ->
  rows_down width buf n !! k = Some (image_row width buf (Z.of_nat (n - 1 - k))).
Proof.
  revert k. induction n as [| n IH]; intros k Hk; [lia |].
  destruct k as [| k]; cbn [rows_down].
  - cbn. do 2 f_equal. lia.
  - cbn [lookup list_lookup]. rewrite IH by lia. do 2 f_equal. lia.
Qed.

Lemma rows_down_full_rows (width : Z) (buf : list byte) (n : nat) :
  0 <= width ->
  Z.of_nat n * (width * 3) <= Z.of_nat (length buf) ->
  Forall (fun row => Z.of_nat (length row) = width * 3) (rows_down width buf n).
Proof.
  intros Hw. induction n as [| n IH]; intros Hlen; cbn [rows_down]; constructor.
  - apply length_image_row; lia.
  - apply IH. lia.
Qed.

(** X5. When the [int] values of the loop do not overflow and the
    buffer is large enough, [save_ppm] makes one [fopen], one [fprintf]
    (the header), then exactly [height] calls of [fwrite] of [width * 3]
    bytes each, and closes the stream once, after the last of them. *)
Theorem save_ppm_calls (w : World) (filepath : string) (width height : Z)
        (pixels : list byte) (s : State) :
  fopen_wb w filepath = true ->
  0 <= width ->
  0 <= height <= CInt.INT_MAX ->
  rows_fit_int width height ->
  width * height * 3 <= Z.of_nat (length pixels) ->
  exists s' writes,
    save_ppm w filepath width height pixels s = Next tt s'
    /\ log s' = log s
                ++ [ Fopen filepath "wb"; Fprintf filepath (ppm_header width height) ]
                ++ writes
                ++ [ Fclose filepath; Stdout ("Saved image to " +:+ filepath +:+ nl) ]
    /\ Z.of_nat (length writes) = height
    /\ Forall (fun e => exists data,
                   e = Fwrite filepath data /\ Z.of_nat (length data) = width * 3)
              writes.
Proof.
  intros Hopen Hw Hh Hfit Hlen.
  rewrite save_ppm_opened_fit by assumption.
  eexists. exists (map (Fwrite filepath) (rows_down width pixels (Z.to_nat height))).
  split; [reflexivity |]. cbn [log]. split; [| split].
  - reflexivity.
  - rewrite length_map, length_rows_down_count. lia.
  - apply Forall_map.
    eapply Forall_impl;
      [apply rows_down_full_rows; rewrite ?Z2Nat.id; lia || nia |].
    intros row Hrow. now exists row.
Qed.

Lemma save_ppm_calls_witness :
  exists s' writes,
    save_ppm w_nominal "out.ppm" 2 2 pixels_2x2 (start ∅) = Next tt s'
    /\ log s' = log (start ∅)
                ++ [ Fopen "out.ppm" "wb"; Fprintf "out.ppm" (ppm_header 2 2) ]
                ++ writes
                ++ [ Fclose "out.ppm"; Stdout ("Saved image to " +:+ "out.ppm" +:+ nl) ]
    /\ Z.of_nat (length writes) = 2
    /\ Forall (fun e => exists data,
                   e = Fwrite "out.ppm" data /\ Z.of_nat (length data) = 2 * 3)
              writes.
Proof.
  apply (save_ppm_calls w_nominal "out.ppm" 2 2 pixels_2x2 (start ∅));
    try reflexivity; unfold rows_fit_int; cbn; unfold CInt.INT_MAX; lia.
Defined.

(** The rows of a written payload are the rows of the buffer, last
    first. *)
Lemma rows_down_payload (width : Z) (buf : list byte) (n : nat) :
  0 <= width ->
  Z.of_nat n * (width * 3) <= Z.of_nat (length buf) ->
  rows_down width (concat (rows_down width buf n)) n
  = reverse (rows_down width buf n).
Proof.
  intros Hw Hlen. apply (list_eq_same_length _ _ n).
  - now rewrite length_reverse, length_rows_down_count.
  - apply length_rows_down_count.
  - intros i x y Hi Hx Hy.
    rewrite rows_down_lookup in Hx by assumption.
    rewrite reverse_lookup in Hy by (now rewrite length_rows_down_count).
    rewrite length_rows_down_count, rows_down_lookup in Hy by lia.
    injection Hx as <-. injection Hy as <-.
    replace (Z.of_nat (n - 1 - i)) with (Z.of_nat n - 1 - Z.of_nat i) by lia.
    rewrite image_row_rows_down by lia. f_equal. lia.
Qed.

(** A buffer of whole rows is its rows, first to last. *)
Lemma concat_rows_up (width : Z) (n : nat) (buf : list byte) :
  0 <= width ->
  Z.of_nat (length buf) = Z.of_nat n * (width * 3) ->
  concat (reverse (rows_down width buf n)) = buf.
Proof.
  intros Hw. revert buf. induction n as [| n IH]; intros buf Hlen.
  - destruct buf; [reflexivity | cbn in Hlen; lia].
  - cbn [rows_down]. rewrite reverse_cons, concat_app. cbn [concat].
    rewrite app_nil_r.
    set (k := Z.to_nat (Z.of_nat n * (width * 3))).
    assert (Hrows : rows_down width buf n = rows_down width (take k buf) n).
    { rewrite <- (take_drop k buf) at 1. apply rows_down_app; [assumption |].
      rewrite length_take. subst k. lia. }
    rewrite Hrows, IH by (rewrite length_take; subst k; lia).
    unfold image_row. fold k.
    rewrite (take_ge (drop k buf)) by (rewrite length_drop; subst k; lia).
    apply take_drop.
Qed.

Lemma ppm_payload_involutive (width height : Z) (pixels : list byte) :
  0 <= width -> 0 <= height ->
  Z.of_nat (length pixels) = width * height * 3 ->
  ppm_payload width height (ppm_payload width height pixels) = pixels.
Proof.
  intros Hw Hh Hlen. unfold ppm_payload.
  rewrite rows_down_payload by (rewrite ?Z2Nat.id; lia).
  apply concat_rows_up; [assumption |]. rewrite Z2Nat.id by lia. lia.
Qed.

(** X6. Saving twice undoes the flip: when the [int] values of the loop
    do not overflow and the payload [save_ppm] has written for a buffer of
    [width * height * 3] bytes is saved in its turn, the file holds the
    bytes of the buffer again, in their original order. *)
Theorem save_ppm_twice_restores_the_buffer (w : World) (filepath : string)
        (width height : Z) (pixels : list byte) (s : State) :
  fopen_wb w filepath = true ->
  0 <= width ->
  0 <= height <= CInt.INT_MAX ->
  rows_fit_int width height ->
  Z.of_nat (length pixels) = width * height * 3 ->
  exists s1 flipped s2,
    save_ppm w filepath width height pixels s = Next tt s1
    /\ files s1 !! filepath = Some (bytes_of (ppm_header width height) ++ flipped)
    /\ save_ppm w filepath width height flipped s1 = Next tt s2
    /\ files s2 !! filepath = Some (bytes_of (ppm_header width height) ++ pixels).
Proof.
  intros Hopen Hw Hh Hfit Hlen.
  assert (Hflip : Z.of_nat (length (ppm_payload width height pixels))
                  = width * height * 3).
  { unfold ppm_payload. rewrite length_rows_down by (rewrite ?Z2Nat.id; lia).
    rewrite Z2Nat.id by lia. ring. }
  rewrite save_ppm_opened_fit by (assumption || lia).
  eexists. exists (ppm_payload width height pixels).
  rewrite save_ppm_opened_fit by (assumption || lia).
  eexists. split; [reflexivity |]. cbn [files].
  split; [apply lookup_insert_eq |]. split; [reflexivity |]. cbn [files].
  rewrite lookup_insert_eq, ppm_payload_involutive by lia. reflexivity.
Qed.

Lemma save_ppm_twice_restores_the_buffer_witness :
  exists s1 flipped s2,
    save_ppm w_nominal "out.ppm" 2 2 pixels_2x2 (start ∅) = Next tt s1
    /\ files s1 !! "out.ppm" = Some (bytes_of (ppm_header 2 2) ++ flipped)
    /\ save_ppm w_nominal "out.ppm" 2 2 flipped s1 = Next tt s2
    /\ files s2 !! "out.ppm" = Some (bytes_of (ppm_header 2 2) ++ pixels_2x2).
Proof.
  apply (save_ppm_twice_restores_the_buffer w_nominal "out.ppm" 2 2 pixels_2x2 (start ∅));
    try reflexivity; unfold rows_fit_int; cbn; unfold CInt.INT_MAX; lia.
Defined.

(** ** The file of a complete run *)







(** ** The header *)

Lemma to_int_not_nil (z : Z) : Z.to_int z <> Decimal.Pos Decimal.Nil
                               /\ Z.to_int z <> Decimal.Neg Decimal.Nil.
Proof.
  destruct z as [| p | p]; cbn; split; try discriminate;
    intros [= H]; now apply (DecimalPos.Unsigned.to_uint_nonnil p).
Qed.

Lemma decimal_inj (a b : Z) : CInt.decimal a = CInt.decimal b -> a = b.
Proof.
  unfold CInt.decimal. intros H. apply DecimalZ.to_int_inj.
  destruct (to_int_not_nil a) as [Ha1 Ha2], (to_int_not_nil b) as [Hb1 Hb2].
  pose proof (NilZero.isi (Z.to_int a) Ha1 Ha2) as Ia.
  pose proof (NilZero.isi (Z.to_int b) Hb1 Hb2) as Ib.
  rewrite H in Ia. congruence.
Qed.

Lemma uint_digits_only (c : ascii) (d : Decimal.uint) :
  has_char c "0123456789" = false ->
  has_char c (NilEmpty.string_of_uint d) = false.
Proof.
  intros Hc. cbn [has_char] in Hc. rewrite !orb_false_iff in Hc.
  induction d; cbn [NilEmpty.string_of_uint has_char]; try reflexivity;
    rewrite IHd, orb_false_r; tauto.
Qed.

(** A decimal number holds digits and at most a sign. *)
Lemma decimal_digits_only (c : ascii) (z : Z) :
  has_char c "-0123456789" = false -> has_char c (CInt.decimal z) = false.
Proof.
  intros Hc. cbn [has_char] in Hc. apply orb_false_iff in Hc. destruct Hc as [Hm Hd].
  assert (Hu : forall d, has_char c (NilZero.string_of_uint d) = false).
  { intros d. pose proof (uint_digits_only c d Hd) as H.
    destruct d; try exact H. unfold NilZero.string_of_uint.
    cbn [has_char] in Hd |- *. rewrite !orb_false_iff in Hd.
    rewrite orb_false_r. tauto. }
  unfold CInt.decimal, NilZero.string_of_int.
  destruct (Z.to_int z); [apply Hu |].
  cbn [has_char]. rewrite Hu, orb_false_r. exact Hm.
Qed.

(** Two texts that are cut at the first occurrence of a character
    agree on both sides of it. *)
Lemma append_split_at (c : ascii) (s1 s2 r1 r2 : string) :
  has_char c s1 = false -> has_char c s2 = false ->
  s1 +:+ String c r1 = s2 +:+ String c r2 ->
  s1 = s2 /\ r1 = r2.
Proof.
  revert s2. induction s1 as [| a s1 IH]; intros [| b s2] H1 H2 Heq;
    cbn in H1, H2, Heq.
  - injection Heq as ->. now split.
  - injection Heq as -> _. rewrite Ascii.eqb_refl in H2. discriminate H2.
  - injection Heq as -> _. rewrite Ascii.eqb_refl in H1. discriminate H1.
  - injection Heq as -> Heq.
    apply orb_false_iff in H1, H2.
    destruct (IH s2 (proj2 H1) (proj2 H2) Heq) as [-> ->]. now split.
Qed.

(** X7. The header names the dimensions without ambiguity: two calls
    write the same header only for the same width and the same height. *)
Theorem ppm_header_determines_dimensions (width height width' height' : Z) :
  ppm_header width height = ppm_header width' height' ->
  width = width' /\ height = height'.
Proof.
  unfold ppm_header, nl. intros H. cbn [String.append] in H.
  injection H as H.
  apply (append_split_at " ") in H;
    try (apply decimal_digits_only; reflexivity).
  destruct H as [Hw H].
  apply (append_split_at "010") in H;
    try (apply decimal_digits_only; reflexivity).
  destruct H as [Hh _].
  split; now apply decimal_inj.
Qed.

Lemma ppm_header_determines_dimensions_witness :
  640 = 640 /\ 480 = 480.
Proof.
  apply (ppm_header_determines_dimensions 640 480 640 480). reflexivity.
Defined.

(** * Properties of [check_shader_compile] *)

Lemma substring_prefix (m : nat) (s : string) :
  exists rest, s = substring 0 m s +:+ rest.
Proof.
  revert s. induction m as [| m IH]; intros s.
  - exists s. now destruct s.
  - destruct s as [| c s]; [now exists EmptyString |].
    destruct (IH s) as [rest Hrest]. exists rest.
    change (String c s = String c (substring 0 m s +:+ rest)). now rewrite <- Hrest.
Qed.

Lemma substring_whole (m : nat) (s : string) :
  (String.length s <= m)%nat -> substring 0 m s = s.
Proof.
  revert s. induction m as [| m IH]; intros s Hlen.
  - destruct s; [reflexivity | cbn in Hlen; lia].
  - destruct s as [| c s]; [reflexivity |]. cbn in Hlen |- *.
    rewrite IH by lia. reflexivity.
Qed.

(** X8. [check_shader_compile] never stops the run and touches no file.
    It asks for the compile status; any non-zero status ends it there.
    On status 0 it fetches the log and prints one line: the text
    [Shader Compile Error: ], the first 511 characters of the driver's
    log (all of it when it is that short) and a newline. *)
Theorem check_shader_compile_report (w : World) (shader : Z) (s : State) :
  exists printed,
    check_shader_compile w shader s
    = Next tt (mkState (files s)
                 (log s ++ GlGetShaderiv shader GL_COMPILE_STATUS :: printed))
    /\ (gl_compile_status w shader <> 0 -> printed = [])
    /\ (gl_compile_status w shader = 0 ->
        exists text rest,
          printed = [ GlGetShaderInfoLog shader 512;
                      Stderr ("Shader Compile Error: " +:+ text +:+ nl) ]
          /\ gl_shader_info_log w shader = text +:+ rest
          /\ (String.length text <= 511)%nat
          /\ ((String.length (gl_shader_info_log w shader) <= 511)%nat ->
              text = gl_shader_info_log w shader)).
Proof.
  rewrite check_shader_compile_run. unfold trace_check.
  eexists. split; [reflexivity |]. split.
  - intros Hok. apply Z.eqb_neq in Hok. now rewrite Hok.
  - intros ->. cbn [Z.eqb].
    destruct (substring_prefix 511 (gl_shader_info_log w shader)) as [rest Hrest].
    exists (substring 0 511 (gl_shader_info_log w shader)), rest.
    split; [reflexivity |]. split; [exact Hrest |]. split.
    + apply length_substring_0.
    + apply substring_whole.
Qed.

(** * Properties of [main] *)

(** The part of a run that passed the seven checks between the set-up
    and the release calls. *)
Lemma trace_body_then_cleanup (w : World) :
  setup_ok w = true ->
  trace w
  = (trace_setup w
     ++ trace_stage w GL_VERTEX_SHADER vertex_shader_text
     ++ trace_stage w GL_FRAGMENT_SHADER fragment_shader_text
     ++ trace_link w ++ trace_uniform w ++ trace_render w ++ trace_save w)
    ++ trace_cleanup w.
Proof.
  intros Hok. rewrite (trace_setup_ok w Hok). unfold trace_program.
  rewrite <- !app_assoc. reflexivity.
Qed.

Lemma filter_none (f : Event -> bool) (l : list Event) :
  Forall (fun e => f e = false) l -> List.filter f l = [].
Proof.
  induction 1 as [| e l He _ IH]; cbn; [reflexivity |]. now rewrite He.
Qed.

(** X9. [main] gives back what it holds exactly when it returns 0: a
    run that returns 0 ends with the eight release calls, each made once;
    a run that returns -1 makes none of them (display, context and surface
    stay as they are) and changes no file. *)
Theorem main_cleans_up_iff_it_returns_zero (w : World) (fs : gmap string (list byte)) :
  exists code s',
    main w (start fs) = Exit code s'
    /\ (code = 0 ->
        exists before,
          log s' = before
                   ++ [ GlDeleteVertexArrays 1 (gl_gen_vertex_array w);
                        GlDeleteProgram (gl_create_program w);
                        GlDeleteFramebuffers 1 (gl_gen_framebuffer w);
                        GlDeleteTextures 1 (gl_gen_texture w);
                        Free;
                        EglDestroySurface (egl_get_display w)
                                          (egl_create_pbuffer_surface w);
                        EglDestroyContext (egl_get_display w) (egl_create_context w);
                        EglTerminate (egl_get_display w) ]
          /\ Forall (fun e => is_cleanup_call e = false) before)
    /\ (code = -1 ->
        Forall (fun e => is_cleanup_call e = false) (log s') /\ files s' = fs).
Proof.
  rewrite main_run. eexists. eexists. split; [reflexivity |].
  cbn [start files log app]. unfold exit_code, files_after.
  destruct (setup_ok w) eqn:Hok.
  - split; [| discriminate]. intros _.
    rewrite (trace_body_then_cleanup w Hok). eexists. split; [reflexivity |].
    unfold_program. along_trace.
  - split; [discriminate |]. intros _. split; [| reflexivity].
    eapply Forall_impl; [apply (trace_setup_failed w Hok) |].
    intros [] He; try discriminate He; reflexivity.
Qed.

(** X10. A failed check is reported by name and ends the run on the
    spot: when a check fails after the earlier ones have passed, the log
    ends with the call that failed followed by the error line of that
    check, and this is the only error line of the run. *)
Theorem first_failed_check_is_reported (w : World) (fs : gmap string (list byte)) :
  exists code s',
    main w (start fs) = Exit code s'
    /\ (egl_get_display w = EGL_NO_DISPLAY ->
        stops_at (log s') (EglGetDisplay EGL_DEFAULT_DISPLAY)
                 "Failed to get EGL display")
    /\ (egl_get_display w <> EGL_NO_DISPLAY ->
        egl_initialize w = 0 ->
        stops_at (log s') (EglInitialize (egl_get_display w))
                 "Failed to initialize EGL")
    /\ (egl_get_display w <> EGL_NO_DISPLAY ->
        egl_initialize w <> 0 ->
        egl_choose_config w = 0 ->
        stops_at (log s') (EglChooseConfig (egl_get_display w) configAttribs 1)
                 "Failed to choose EGL config")
    /\ (egl_get_display w <> EGL_NO_DISPLAY ->
        egl_initialize w <> 0 ->
        egl_choose_config w <> 0 ->
        egl_create_context w = EGL_NO_CONTEXT ->
        stops_at (log s')
                 (EglCreateContext (egl_get_display w) (egl_config w) EGL_NO_CONTEXT)
                 "Failed to create EGL context")
    /\ (egl_get_display w <> EGL_NO_DISPLAY ->
        egl_initialize w <> 0 ->
        egl_choose_config w <> 0 ->
        egl_create_context w <> EGL_NO_CONTEXT ->
        egl_create_pbuffer_surface w = EGL_NO_SURFACE ->
        stops_at (log s')
                 (EglCreatePbufferSurface (egl_get_display w) (egl_config w)
                                          pbufferAttribs)
                 "Failed to create EGL surface")
    /\ (egl_get_display w <> EGL_NO_DISPLAY ->
        egl_initialize w <> 0 ->
        egl_choose_config w <> 0 ->
        egl_create_context w <> EGL_NO_CONTEXT ->
        egl_create_pbuffer_surface w <> EGL_NO_SURFACE ->
        egl_make_current w = 0 ->
        stops_at (log s')
                 (EglMakeCurrent (egl_get_display w) (egl_create_pbuffer_surface w)
                                 (egl_create_pbuffer_surface w) (egl_create_context w))
                 "Failed to make context current")
    /\ (egl_get_display w <> EGL_NO_DISPLAY ->
        egl_initialize w <> 0 ->
        egl_choose_config w <> 0 ->
        egl_create_context w <> EGL_NO_CONTEXT ->
        egl_create_pbuffer_surface w <> EGL_NO_SURFACE ->
        egl_make_current w <> 0 ->
        gl_check_framebuffer_status w <> GL_FRAMEBUFFER_COMPLETE ->
        stops_at (log s') (GlCheckFramebufferStatus GL_FRAMEBUFFER)
                 "Error: Framebuffer is not complete!").
Proof.
  rewrite main_run. eexists. eexists. split; [reflexivity |].
  cbn [start files log app]. unfold stops_at. unfold_trace.
  repeat split; intros;
    repeat match goal with
           | H : _ <> _ |- _ => apply Z.eqb_neq in H; rewrite H
           | H : _ = _ |- _ => apply Z.eqb_eq in H; rewrite H
           end.
  - exists (take 0 (trace_setup w)). split; [reflexivity |].
    unfold trace_setup. cbn [take app]. along_trace.
  - exists (take 1 (trace_setup w)). split; [reflexivity |].
    unfold trace_setup. cbn [take app]. along_trace.
  - exists (take 2 (trace_setup w)). split; [reflexivity |].
    unfold trace_setup. cbn [take app]. along_trace.
  - exists (take 4 (trace_setup w)). split; [reflexivity |].
    unfold trace_setup. cbn [take app]. along_trace.
  - exists (take 5 (trace_setup w)). split; [reflexivity |].
    unfold trace_setup. cbn [take app]. along_trace.
  - exists (take 6 (trace_setup w)). split; [reflexivity |].
    unfold trace_setup. cbn [take app]. along_trace.
  - exists (take 15 (trace_setup w)). split; [reflexivity |].
    unfold trace_setup. cbn [take app]. along_trace.
Qed.

(** The run without a display, in full. *)
Example run_without_display :
  main w_no_display (start ∅)
  = Exit (-1) (mkState ∅ [ EglGetDisplay EGL_DEFAULT_DISPLAY;
                           Stderr (line "Failed to get EGL display") ]).
Proof. rewrite main_run. reflexivity. Qed.

(** X11. No OpenGL call is made without a current context: either the
    log holds no OpenGL call at all, or [eglMakeCurrent] succeeded and
    every OpenGL call comes after it. *)
Theorem gl_calls_follow_make_current (w : World) (fs : gmap string (list byte)) :
  exists code s',
    main w (start fs) = Exit code s'
    /\ (Forall (fun e => is_gl_call e = false) (log s')
        \/ (egl_make_current w <> 0
            /\ exists before after,
                log s' = before
                         ++ EglMakeCurrent (egl_get_display w)
                                           (egl_create_pbuffer_surface w)
                                           (egl_create_pbuffer_surface w)
                                           (egl_create_context w)
                            :: after
                /\ Forall (fun e => is_gl_call e = false) before)).
Proof.
  rewrite main_run. eexists. eexists. split; [reflexivity |].
  cbn [start files log app]. unfold trace, trace_initialize, trace_config,
    trace_context, trace_surface, trace_current.
  destruct (egl_get_display w =? EGL_NO_DISPLAY); [left; along_trace |].
  destruct (egl_initialize w =? 0); [left; along_trace |].
  destruct (egl_choose_config w =? 0); [left; along_trace |].
  destruct (egl_create_context w =? EGL_NO_CONTEXT); [left; along_trace |].
  destruct (egl_create_pbuffer_surface w =? EGL_NO_SURFACE); [left; along_trace |].
  destruct (egl_make_current w =? 0) eqn:Hcur; [left; along_trace |].
  right. split; [now apply Z.eqb_neq |].
  exists (take 6 (trace_setup w)). eexists. split; [reflexivity |].
  unfold trace_setup. cbn [take]. along_trace.
Qed.

Lemma filter_fwrites (f : Event -> bool) (path : string) (rows : list (list byte)) :
  (forall data, f (Fwrite path data) = false) ->
  List.filter f (map (Fwrite path) rows) = [].
Proof.
  intros Hf. apply filter_none. now apply Forall_fwrites.
Qed.

(** In a run that passed the seven checks, the events of one of the
    kinds [is_draw], [is_readback], [is_open] are one call of the render
    or save step. *)
Lemma one_shot_events (w : World) :
  setup_ok w = true ->
  List.filter is_draw (trace w) = [ GlDrawArrays GL_TRIANGLES 0 3 ]
  /\ List.filter is_readback (trace w)
     = [ GlReadPixels 0 0 WIDTH HEIGHT GL_RGB GL_UNSIGNED_BYTE ]
  /\ List.filter is_open (trace w) = [ Fopen "output.ppm" "wb" ].
Proof.
  intros Hok. rewrite (trace_setup_ok w Hok).
  unfold trace_program, trace_stage, trace_check, trace_uniform, trace_save.
  rewrite !List.filter_app.
  destruct (gl_compile_status w (gl_create_shader w GL_VERTEX_SHADER) =? 0),
    (gl_compile_status w (gl_create_shader w GL_FRAGMENT_SHADER) =? 0),
    (negb (gl_get_uniform_location w =? -1)),
    (fopen_wb w "output.ppm");
    rewrite ?List.filter_app, ?filter_fwrites by reflexivity;
    repeat split; reflexivity.
Qed.

(** X12. One frame per run: a run that passes the seven checks draws
    once, reads back once and opens one file; a run that fails one of
    them does none of the three. *)
Theorem main_is_single_shot (w : World) (fs : gmap string (list byte)) :
  exists code s',
    main w (start fs) = Exit code s'
    /\ length (List.filter is_draw (log s')) = (if setup_ok w then 1 else 0)%nat
    /\ length (List.filter is_readback (log s')) = (if setup_ok w then 1 else 0)%nat
    /\ length (List.filter is_open (log s')) = (if setup_ok w then 1 else 0)%nat.
Proof.
  rewrite main_run. eexists. eexists. split; [reflexivity |].
  cbn [start files log app]. destruct (setup_ok w) eqn:Hok.
  - destruct (one_shot_events w Hok) as (-> & -> & ->). repeat split.
  - pose proof (trace_setup_failed w Hok) as Hall.
    rewrite !filter_none; [repeat split | | |];
      (eapply Forall_impl; [exact Hall |]);
      intros [] He; try discriminate He; reflexivity.
Qed.

(** X14. When the look-up finds [u_Vertices], at whatever location other
    than -1, the twelve coordinates are uploaded to that location right
    after the look-up, before the draw call, and no warning is printed. *)
Theorem found_uniform_is_uploaded_before_draw
        (w : World) (fs : gmap string (list byte)) :
  setup_ok w = true ->
  gl_get_uniform_location w <> -1 ->
  exists s' before between rest,
    main w (start fs) = Exit 0 s'
    /\ log s' = before
                ++ [ GlGetUniformLocation (gl_create_program w) "u_Vertices";
                     GlUniform4fv (gl_get_uniform_location w) 3
                       [ f_0_0;  f_0_5;  f_0_0; f_1_0;
                         f_m0_5; f_m0_5; f_0_0; f_1_0;
                         f_0_5;  f_m0_5; f_0_0; f_1_0 ] ]
                ++ between
                ++ GlDrawArrays GL_TRIANGLES 0 3 :: rest
    /\ Forall (fun e => e <> Stderr (line "Warning: Could not find u_Vertices uniform location."))
              (log s')
    /\ length (List.filter is_uniform_upload (log s')) = 1%nat.
Proof.
  intros Hok Hloc. apply Z.eqb_neq in Hloc.
  rewrite main_run, (exit_code_ok w Hok).
  cbn [start files log app]. rewrite (trace_setup_ok w Hok).
  eexists.
  exists (trace_setup w
          ++ trace_stage w GL_VERTEX_SHADER vertex_shader_text
          ++ trace_stage w GL_FRAGMENT_SHADER fragment_shader_text
          ++ trace_link w).
  exists (take 5 (trace_render w)).
  exists (drop 6 (trace_render w) ++ trace_save w ++ trace_cleanup w).
  split; [reflexivity |]. cbn [log]. split; [| split].
  - unfold trace_program, trace_uniform, trace_render. rewrite Hloc.
    cbn [negb take drop]. rewrite <- !app_assoc. reflexivity.
  - unfold_program. rewrite Hloc. cbn [negb].
    along_trace; try discriminate;
      match goal with |- Stderr ?a <> Stderr ?b => intros [= H]; discriminate H end.
  - unfold trace_program, trace_stage, trace_check, trace_uniform, trace_save.
    rewrite Hloc. cbn [negb]. rewrite !List.filter_app.
    destruct (gl_compile_status w (gl_create_shader w GL_VERTEX_SHADER) =? 0),
      (gl_compile_status w (gl_create_shader w GL_FRAGMENT_SHADER) =? 0),
      (fopen_wb w "output.ppm");
      rewrite ?List.filter_app, ?filter_fwrites by reflexivity; reflexivity.
Qed.

Lemma found_uniform_is_uploaded_before_draw_witness :
  exists s' before between rest,
    main w_uniform_found (start ∅) = Exit 0 s'
    /\ log s' = before
                ++ [ GlGetUniformLocation 3 "u_Vertices";
                     GlUniform4fv 5 3
                       [ f_0_0;  f_0_5;  f_0_0; f_1_0;
                         f_m0_5; f_m0_5; f_0_0; f_1_0;
                         f_0_5;  f_m0_5; f_0_0; f_1_0 ] ]
                ++ between
                ++ GlDrawArrays GL_TRIANGLES 0 3 :: rest
    /\ Forall (fun e => e <> Stderr (line "Warning: Could not find u_Vertices uniform location."))
              (log s')
    /\ length (List.filter is_uniform_upload (log s')) = 1%nat.
Proof.
  apply (found_uniform_is_uploaded_before_draw w_uniform_found ∅).
  - reflexivity.
  - discriminate.
Defined.

Lemma first_failed_check_is_reported_witness :
  exists s',
    main w_no_display (start ∅) = Exit (-1) s'
    /\ stops_at (log s') (EglGetDisplay EGL_DEFAULT_DISPLAY) "Failed to get EGL display".
Proof.
  destruct (first_failed_check_is_reported w_no_display ∅)
    as (code & s' & Hrun & Hdisplay & _).
  exists s'. split; [| apply Hdisplay; reflexivity].
  pose proof Hrun as Hcode. rewrite main_run in Hcode.
  injection Hcode as Hcode _. vm_compute in Hcode. rewrite Hcode. exact Hrun.
Defined.

(** X15. A second run on the file system the first one has left, with
    the same answers from the driver, returns the same value and leaves
    every file as it found it: the image is opened for writing afresh,
    not appended to. *)
Theorem main_run_twice_is_run_once (w : World) (fs : gmap string (list byte)) :
  exists code s1 s2,
    main w (start fs) = Exit code s1
    /\ main w (start (files s1)) = Exit code s2
    /\ files s2 = files s1.
Proof.
  exists (exit_code w).
  exists (mkState (files_after w fs) (trace w)).
  exists (mkState (files_after w (files_after w fs)) (trace w)).
  split; [apply main_run |]. split; [apply main_run |].
  cbn [files]. unfold files_after.
  destruct (setup_ok w && fopen_wb w "output.ppm"); [| reflexivity].
  apply insert_insert_eq.
Qed.

(** * The properties of the specification *)

(** C1. In a successful run (the seven checks pass and the output file
    can be opened) [main] returns 0 and leaves in [output.ppm] the fifteen
    bytes [P6\n640 480\n255\n] followed by a payload of exactly
    640 * 480 * 3 bytes. *)
Theorem C1_header_and_payload_size (w : World) (fs : gmap string (list byte)) :
  setup_ok w = true ->
  fopen_wb w "output.ppm" = true ->
  exists s' payload,
    main w (start fs) = Exit 0 s'
    /\ files s' !! "output.ppm" = Some (header_640_480 ++ payload)
    /\ Z.of_nat (length payload) = 640 * 480 * 3.
Proof.
  intros Hok Hopen. rewrite main_run, (exit_code_ok w Hok).
  eexists. exists (ppm_payload WIDTH HEIGHT (readback w)).
  split; [reflexivity |]. split.
  - now apply files_after_opened.
  - apply length_payload_640_480.
Qed.

Lemma C1_witness :
  exists s' payload,
    main w_nominal (start ∅) = Exit 0 s'
    /\ files s' !! "output.ppm" = Some (header_640_480 ++ payload)
    /\ Z.of_nat (length payload) = 640 * 480 * 3.
Proof.
  apply (C1_header_and_payload_size w_nominal ∅); reflexivity.
Defined.

(** C2. For a buffer of [width * height * 3] bytes and a file that can
    be opened, provided the [int] values the loop computes, the row size
    [width * 3] and the offsets up to [(height - 1) * width * 3], do not
    overflow, [save_ppm] returns and leaves the header followed by a
    payload of the same size as the buffer, and row [height - 1 - i] of
    the payload is row [i] of the buffer, byte for byte, for every [i] in
    [0, height).  The size [width * height * 3] itself need not fit an
    [int]. *)
Theorem C2_rows_reversed (w : World) (filepath : string) (width height : Z)
        (pixels : list byte) (s : State) (i : Z) :
  fopen_wb w filepath = true ->
  height <= CInt.INT_MAX ->
  width * 3 <= CInt.INT_MAX ->
  (height - 1) * (width * 3) <= CInt.INT_MAX ->
  Z.of_nat (length pixels) = width * height * 3 ->
  0 <= i < height ->
  exists s' payload,
    save_ppm w filepath width height pixels s = Next tt s'
    /\ files s' !! filepath = Some (bytes_of (ppm_header width height) ++ payload)
    /\ length payload = length pixels
    /\ image_row width payload (height - 1 - i) = image_row width pixels i.
Proof.
  intros Hopen Hh Hrow Hoff Hsize Hi.
  assert (Hw : 0 <= width) by nia.
  rewrite save_ppm_opened_fit
    by (try assumption; try lia; unfold rows_fit_int; intros _; nia).
  eexists. exists (ppm_payload width height pixels).
  split; [reflexivity |]. cbn [files]. split; [| split].
  - apply lookup_insert_eq.
  - apply Nat2Z.inj. rewrite Hsize. unfold ppm_payload.
    rewrite length_rows_down by (rewrite ?Z2Nat.id; lia).
    rewrite Z2Nat.id by lia. ring.
  - apply ppm_payload_row; [assumption | lia | assumption | assumption].
Qed.

Lemma C2_witness :
  exists s' payload,
    save_ppm w_nominal "out.ppm" 2 2 pixels_2x2 (start ∅) = Next tt s'
    /\ files s' !! "out.ppm" = Some (bytes_of (ppm_header 2 2) ++ payload)
    /\ length payload = length pixels_2x2
    /\ image_row 2 payload (2 - 1 - 0) = image_row 2 pixels_2x2 0.
Proof.
  apply (C2_rows_reversed w_nominal "out.ppm" 2 2 pixels_2x2 (start ∅) 0);
    try reflexivity; unfold CInt.INT_MAX; lia.
Defined.

(** A buffer of 30000 * 30000 * 3 bytes: the file opens, the buffer has
    the size of the image, and [save_ppm] does not write the rows: the
    offset [29999 * 30000 * 3] of the first row it asks for is not an
    [int], and the call is undefined. *)
Lemma C2_counterexample :
  fopen_wb w_nominal "out.ppm" = true
  /\ Z.of_nat (length pixels_30000) = 30000 * 30000 * 3
  /\ save_ppm w_nominal "out.ppm" 30000 30000 pixels_30000 (start ∅) = Undefined.
Proof.
  split; [reflexivity |]. split.
  - unfold pixels_30000. rewrite repeat_length. apply Z2Nat.id. lia.
  - apply save_ppm_30000_undefined. reflexivity.
Qed.

(** C3. When [fopen] fails on the output path, [save_ppm] prints its
    error line and the run goes on: [main] returns 0, the file system is
    untouched, the log holds no [fprintf] to a file and no [fwrite], and
    it ends with the failed [fopen], the error line and then the release
    of vertex array, program, framebuffer, texture, pixel block, surface,
    context and display. *)
Theorem C3_open_failure_skips_write_and_cleans_up
        (w : World) (fs : gmap string (list byte)) :
  setup_ok w = true ->
  fopen_wb w "output.ppm" = false ->
  exists s',
    main w (start fs) = Exit 0 s'
    /\ files s' = fs
    /\ Forall (fun e => is_file_write e = false) (log s')
    /\ exists before,
        log s' = before
                 ++ [ Fopen "output.ppm" "wb";
                      Stderr (line "Failed to open file for writing: output.ppm") ]
                 ++ [ GlDeleteVertexArrays 1 (gl_gen_vertex_array w);
                      GlDeleteProgram (gl_create_program w);
                      GlDeleteFramebuffers 1 (gl_gen_framebuffer w);
                      GlDeleteTextures 1 (gl_gen_texture w);
                      Free;
                      EglDestroySurface (egl_get_display w) (egl_create_pbuffer_surface w);
                      EglDestroyContext (egl_get_display w) (egl_create_context w);
                      EglTerminate (egl_get_display w) ].
Proof.
  intros Hok Hopen. rewrite main_run, (exit_code_ok w Hok).
  eexists. split; [reflexivity |]. cbn [files log start app].
  rewrite (trace_setup_ok w Hok). split; [| split].
  - unfold files_after. now rewrite Hok, Hopen.
  - unfold_program. rewrite Hopen. along_trace.
  - eexists. rewrite <- (trace_setup_ok w Hok).
    now apply trace_open_failure_tail.
Qed.

Lemma C3_witness :
  exists s',
    main w_unwritable (start ∅) = Exit 0 s'
    /\ files s' = ∅
    /\ Forall (fun e => is_file_write e = false) (log s')
    /\ exists before,
        log s' = before
                 ++ [ Fopen "output.ppm" "wb";
                      Stderr (line "Failed to open file for writing: output.ppm") ]
                 ++ [ GlDeleteVertexArrays 1 1;
                      GlDeleteProgram 3;
                      GlDeleteFramebuffers 1 1;
                      GlDeleteTextures 1 1;
                      Free;
                      EglDestroySurface 1 3;
                      EglDestroyContext 1 2;
                      EglTerminate 1 ].
Proof.
  apply (C3_open_failure_skips_write_and_cleans_up w_unwritable ∅); reflexivity.
Defined.

(** C4, the run of [w_no_config]: no configuration matches, and [main]
    goes on to [eglBindAPI] and [eglCreateContext]; what it reports is the
    failure of the context creation. *)
Theorem C4_no_matching_config_reaches_context_creation :
  egl_choose_config w_no_config = 1
  /\ egl_num_configs w_no_config = 0
  /\ main w_no_config (start ∅)
     = Exit (-1) (mkState ∅
         [ EglGetDisplay EGL_DEFAULT_DISPLAY;
           EglInitialize 1;
           EglChooseConfig 1 configAttribs 1;
           EglBindAPI EGL_OPENGL_API;
           EglCreateContext 1 0 EGL_NO_CONTEXT;
           Stderr (line "Failed to create EGL context") ]).
Proof.
  split; [reflexivity |]. split; [reflexivity |].
  rewrite main_run. reflexivity.
Qed.

(** C5 (as the code has it).  In a run that passed the seven checks, a
    stage that fails to compile gets its log printed after
    [Shader Compile Error: ], cut to 511 characters (512 bytes with the
    terminating zero), before the program is linked; the run is not
    stopped.  Nor is it stopped by the link: whatever [gl_link_status]
    is, [glLinkProgram] is followed by the draw call, the read-back and
    the opening of the output file, and [main] returns 0. *)
Theorem C5_compile_and_link_failures_do_not_abort
        (w : World) (fs : gmap string (list byte)) :
  setup_ok w = true ->
  exists s' before after,
    main w (start fs) = Exit 0 s'
    /\ log s' = before ++ GlLinkProgram (gl_create_program w) :: after
    /\ (forall kind,
          kind = GL_VERTEX_SHADER \/ kind = GL_FRAGMENT_SHADER ->
          gl_compile_status w (gl_create_shader w kind) = 0 ->
          exists text,
            In (Stderr ("Shader Compile Error: " +:+ text +:+ nl)) before
            /\ text = substring 0 511 (gl_shader_info_log w (gl_create_shader w kind))
            /\ (String.length text + 1 <= 512)%nat)
    /\ In (GlDrawArrays GL_TRIANGLES 0 3) after
    /\ In (GlReadPixels 0 0 640 480 GL_RGB GL_UNSIGNED_BYTE) after
    /\ In (Fopen "output.ppm" "wb") after.
Proof.
  intros Hok.
  destruct (run_after_link w fs Hok) as (before & after & Hrun & Hbefore & Hrest).
  eexists. exists before, after. split; [exact Hrun |].
  split; [reflexivity |]. split; [| exact Hrest].
  intros kind Hkind Hfail. eexists. split; [| split; [reflexivity |]].
  - rewrite Hbefore, !in_app_iff.
    destruct Hkind as [-> | ->].
    + right. left. now apply compile_error_in_stage.
    + right. right. left. now apply compile_error_in_stage.
  - pose proof (length_substring_0 511
                  (gl_shader_info_log w (gl_create_shader w kind))). lia.
Qed.

Lemma C5_witness :
  gl_compile_status w_bad_shaders (gl_create_shader w_bad_shaders GL_VERTEX_SHADER) = 0
  /\ gl_link_status w_bad_shaders = 0
  /\ exists s' before after,
    main w_bad_shaders (start ∅) = Exit 0 s'
    /\ log s' = before ++ GlLinkProgram (gl_create_program w_bad_shaders) :: after
    /\ (forall kind,
          kind = GL_VERTEX_SHADER \/ kind = GL_FRAGMENT_SHADER ->
          gl_compile_status w_bad_shaders (gl_create_shader w_bad_shaders kind) = 0 ->
          exists text,
            In (Stderr ("Shader Compile Error: " +:+ text +:+ nl)) before
            /\ text = substring 0 511
                        (gl_shader_info_log w_bad_shaders
                           (gl_create_shader w_bad_shaders kind))
            /\ (String.length text + 1 <= 512)%nat)
    /\ In (GlDrawArrays GL_TRIANGLES 0 3) after
    /\ In (GlReadPixels 0 0 640 480 GL_RGB GL_UNSIGNED_BYTE) after
    /\ In (Fopen "output.ppm" "wb") after.
Proof.
  split; [reflexivity |]. split; [reflexivity |].
  apply (C5_compile_and_link_failures_do_not_abort w_bad_shaders ∅). reflexivity.
Defined.

(** Counterexample to C5 with its clause on linking: in the world
    [w_link_fails] the program does not link, and yet [glLinkProgram] is
    followed by the draw call and the read-back, the image file is
    written and [main] returns 0. *)
Lemma C5_counterexample :
  gl_link_status w_link_fails = 0
  /\ exists s' before after,
    main w_link_fails (start ∅) = Exit 0 s'
    /\ log s' = before ++ GlLinkProgram 3 :: after
    /\ In (GlDrawArrays GL_TRIANGLES 0 3) after
    /\ In (GlReadPixels 0 0 640 480 GL_RGB GL_UNSIGNED_BYTE) after
    /\ is_Some (files s' !! "output.ppm").
Proof.
  split; [reflexivity |].
  destruct (run_after_link w_link_fails ∅ eq_refl)
    as (before & after & Hrun & _ & Hdraw & Hread & _).
  eexists. exists before, after. split; [exact Hrun |].
  split; [reflexivity |]. split; [exact Hdraw |]. split; [exact Hread |].
  cbn [files]. rewrite (files_after_opened w_link_fails ∅ eq_refl eq_refl).
  eexists. reflexivity.
Qed.

(** C6. When the look-up of [u_Vertices] answers -1, [main] prints the
    warning, uploads no geometry, and goes on: the draw call, the
    read-back and the opening of the output file follow in that order,
    the run returns 0, and the image file is written whenever it can be
    opened. *)
Theorem C6_missing_uniform_is_only_a_warning
        (w : World) (fs : gmap string (list byte)) :
  setup_ok w = true ->
  gl_get_uniform_location w = -1 ->
  exists s' before between rest,
    main w (start fs) = Exit 0 s'
    /\ log s' = before
                ++ [ GlGetUniformLocation (gl_create_program w) "u_Vertices";
                     Stderr (line "Warning: Could not find u_Vertices uniform location.") ]
                ++ between
                ++ [ GlDrawArrays GL_TRIANGLES 0 3;
                     Malloc (640 * 480 * 3);
                     GlReadPixels 0 0 640 480 GL_RGB GL_UNSIGNED_BYTE;
                     Fopen "output.ppm" "wb" ]
                ++ rest
    /\ Forall (fun e => is_uniform_upload e = false) (log s')
    /\ (fopen_wb w "output.ppm" = true ->
        exists payload,
          files s' !! "output.ppm" = Some (header_640_480 ++ payload)
          /\ Z.of_nat (length payload) = 640 * 480 * 3).
Proof.
  intros Hok Hloc. rewrite main_run, (exit_code_ok w Hok).
  cbn [start files log app]. rewrite (trace_setup_ok w Hok).
  exists (mkState (files_after w fs) (trace_setup w ++ trace_program w)).
  exists (trace_setup w
          ++ trace_stage w GL_VERTEX_SHADER vertex_shader_text
          ++ trace_stage w GL_FRAGMENT_SHADER fragment_shader_text
          ++ trace_link w).
  exists (take 5 (trace_render w)).
  exists (tail (trace_save w) ++ trace_cleanup w).
  split; [reflexivity |]. cbn [files log]. split; [| split].
  - unfold trace_program, trace_uniform, trace_render, trace_save.
    rewrite Hloc. cbn [Z.eqb Pos.eqb negb take].
    destruct (fopen_wb w "output.ppm"); cbn [tail app];
      rewrite <- !app_assoc; reflexivity.
  - unfold_program. rewrite Hloc. cbn [Z.eqb Pos.eqb negb]. along_trace.
  - intros Hopen. exists (ppm_payload WIDTH HEIGHT (readback w)). split.
    + now apply files_after_opened.
    + apply length_payload_640_480.
Qed.

Lemma C6_witness :
  exists s' before between rest,
    main w_no_uniform (start ∅) = Exit 0 s'
    /\ log s' = before
                ++ [ GlGetUniformLocation 3 "u_Vertices";
                     Stderr (line "Warning: Could not find u_Vertices uniform location.") ]
                ++ between
                ++ [ GlDrawArrays GL_TRIANGLES 0 3;
                     Malloc (640 * 480 * 3);
                     GlReadPixels 0 0 640 480 GL_RGB GL_UNSIGNED_BYTE;
                     Fopen "output.ppm" "wb" ]
                ++ rest
    /\ Forall (fun e => is_uniform_upload e = false) (log s')
    /\ (fopen_wb w_no_uniform "output.ppm" = true ->
        exists payload,
          files s' !! "output.ppm" = Some (header_640_480 ++ payload)
          /\ Z.of_nat (length payload) = 640 * 480 * 3).
Proof.
  apply (C6_missing_uniform_is_only_a_warning w_no_uniform ∅); reflexivity.
Defined.

(** C7. If the framebuffer-completeness check does not return complete,
    [main] returns [-1]; the log of the run holds no draw call, no
    read-back and no call on a file, the file system is as it was, and
    when the check was reached the run ends right after it, with the error
    line. *)
Theorem C7_incomplete_framebuffer_halts (w : World) (fs : gmap string (list byte)) :
  gl_check_framebuffer_status w <> GL_FRAMEBUFFER_COMPLETE ->
  exists s',
    main w (start fs) = Exit (-1) s'
    /\ files s' = fs
    /\ Forall (fun e => is_draw e = false /\ is_readback e = false
                        /\ is_file_call e = false) (log s')
    /\ (In (GlCheckFramebufferStatus GL_FRAMEBUFFER) (log s') ->
        exists before,
          log s' = before ++ [ GlCheckFramebufferStatus GL_FRAMEBUFFER;
                               Stderr (line "Error: Framebuffer is not complete!") ]).
Proof.
  intros Hst. apply Z.eqb_neq in Hst.
  rewrite main_run. eexists. split; [| split; [| split]].
  - unfold exit_code, setup_ok. rewrite Hst, andb_false_r. reflexivity.
  - cbn. unfold files_after, setup_ok. now rewrite Hst, andb_false_r.
  - cbn [log start app].
    unfold trace, trace_initialize, trace_config, trace_context, trace_surface,
      trace_current, trace_target.
    rewrite Hst. along_trace; auto.
  - cbn [log start app].
    unfold trace, trace_initialize, trace_config, trace_context, trace_surface,
      trace_current, trace_target.
    rewrite Hst.
    destruct (egl_get_display w =? EGL_NO_DISPLAY);
      [cbn; intuition discriminate |].
    destruct (egl_initialize w =? 0); [cbn; intuition discriminate |].
    destruct (egl_choose_config w =? 0); [cbn; intuition discriminate |].
    destruct (egl_create_context w =? EGL_NO_CONTEXT); [cbn; intuition discriminate |].
    destruct (egl_create_pbuffer_surface w =? EGL_NO_SURFACE);
      [cbn; intuition discriminate |].
    destruct (egl_make_current w =? 0); [cbn; intuition discriminate |].
    intros _. exists (trace_before_check w). reflexivity.
Qed.

Lemma C7_witness :
  exists s' before,
    main w_incomplete (start ∅) = Exit (-1) s'
    /\ files s' = ∅
    /\ Forall (fun e => is_draw e = false /\ is_readback e = false
                        /\ is_file_call e = false) (log s')
    /\ log s' = before ++ [ GlCheckFramebufferStatus GL_FRAMEBUFFER;
                            Stderr (line "Error: Framebuffer is not complete!") ].
Proof.
  assert (Hst : gl_check_framebuffer_status w_incomplete <> GL_FRAMEBUFFER_COMPLETE)
    by (vm_compute; discriminate).
  destruct (C7_incomplete_framebuffer_halts w_incomplete ∅ Hst)
    as (s' & Hrun & Hfiles & Hall & Hend).
  assert (Hin : In (GlCheckFramebufferStatus GL_FRAMEBUFFER) (log s')).
  { rewrite main_run in Hrun. injection Hrun as <-. vm_compute. tauto. }
  destruct (Hend Hin) as (before & Hlog).
  exists s', before. repeat split; assumption.
Defined.




(** C9. The only path [main] ever hands to the C library is
    [output.ppm], opened with mode [wb]: every call on a file in the log
    names it, the call is made exactly in the runs that pass the seven
    checks, and no other file of the file system changes. *)
Theorem C9_output_path_is_output_ppm (w : World) (fs : gmap string (list byte)) :
  exists code s',
    main w (start fs) = Exit code s'
    /\ Forall (fun e => on_file "output.ppm" "wb" e = true) (log s')
    /\ (setup_ok w = true <-> In (Fopen "output.ppm" "wb") (log s'))
    /\ (forall path, path <> "output.ppm" -> files s' !! path = fs !! path).
Proof.
  rewrite main_run. eexists. eexists. split; [reflexivity |].
  cbn [start files log app]. split; [| split].
  - destruct (setup_ok w) eqn:Hok.
    + rewrite (trace_setup_ok w Hok). apply Forall_app. split.
      * apply trace_setup_on_file.
      * apply trace_program_on_file.
    + eapply Forall_impl; [apply (trace_setup_failed w Hok) |].
      intros [] He; try discriminate He; reflexivity.
  - split.
    + intros Hok. rewrite (trace_setup_ok w Hok). apply in_or_app. right.
      unfold trace_program, trace_save. rewrite !in_app_iff. do 5 right. left.
      destruct (fopen_wb w "output.ppm"); left; reflexivity.
    + intros Hin. destruct (setup_ok w) eqn:Hok; [reflexivity |].
      pose proof (trace_setup_failed w Hok) as Hall.
      rewrite List.Forall_forall in Hall. apply Hall in Hin. discriminate Hin.
  - intros path Hpath. unfold files_after.
    destruct (setup_ok w && fopen_wb w "output.ppm"); [| reflexivity].
    now apply lookup_insert_ne.
Qed.

(** C10. [main] returns 0 or -1, and -1 exactly when one of the seven
    set-up checks fails (display, initialize, config, context, surface,
    make-current, framebuffer completeness).  In particular a run whose
    output file cannot be opened prints the error line, goes through the
    eight release calls and returns 0. *)
Theorem C10_open_failure_exits_zero (w : World) (fs : gmap string (list byte)) :
  exists code s',
    main w (start fs) = Exit code s'
    /\ (code = 0 \/ code = -1)
    /\ (code = -1 <->
        egl_get_display w = EGL_NO_DISPLAY
        \/ egl_initialize w = 0
        \/ egl_choose_config w = 0
        \/ egl_create_context w = EGL_NO_CONTEXT
        \/ egl_create_pbuffer_surface w = EGL_NO_SURFACE
        \/ egl_make_current w = 0
        \/ gl_check_framebuffer_status w <> GL_FRAMEBUFFER_COMPLETE)
    /\ (setup_ok w = true -> fopen_wb w "output.ppm" = false ->
        code = 0
        /\ exists before,
            log s' = before
                     ++ [ Fopen "output.ppm" "wb";
                          Stderr (line "Failed to open file for writing: output.ppm") ]
                     ++ [ GlDeleteVertexArrays 1 (gl_gen_vertex_array w);
                          GlDeleteProgram (gl_create_program w);
                          GlDeleteFramebuffers 1 (gl_gen_framebuffer w);
                          GlDeleteTextures 1 (gl_gen_texture w);
                          Free;
                          EglDestroySurface (egl_get_display w)
                                            (egl_create_pbuffer_surface w);
                          EglDestroyContext (egl_get_display w) (egl_create_context w);
                          EglTerminate (egl_get_display w) ]).
Proof.
  rewrite main_run. eexists. eexists. split; [reflexivity |].
  cbn [start files log app]. rewrite <- setup_ok_false. unfold exit_code, files_after.
  destruct (setup_ok w) eqn:Hok.
  - split; [now left |]. split; [split; discriminate |].
    intros _ Hopen. split; [reflexivity |].
    eexists. now apply trace_open_failure_tail.
  - split; [now right |]. split; [split; reflexivity |]. discriminate.
Qed.

Lemma C10_witness :
  exists s' before,
    main w_unwritable (start ∅) = Exit 0 s'
    /\ log s' = before
                ++ [ Fopen "output.ppm" "wb";
                     Stderr (line "Failed to open file for writing: output.ppm") ]
                ++ [ GlDeleteVertexArrays 1 1;
                     GlDeleteProgram 3;
                     GlDeleteFramebuffers 1 1;
                     GlDeleteTextures 1 1;
                     Free;
                     EglDestroySurface 1 3;
                     EglDestroyContext 1 2;
                     EglTerminate 1 ].
Proof.
  destruct (C10_open_failure_exits_zero w_unwritable ∅)
    as (code & s' & Hrun & _ & _ & Hopen).
  destruct (Hopen eq_refl eq_refl) as (Hcode & before & Hlog).
  exists s', before. split.
  - rewrite <- Hcode. exact Hrun.
  - exact Hlog.
Defined.
